(** * hex_parser: a shallow embedding of [hex_parser.py] and its properties

    The program parses single lines of an Intel HEX file
    ([parse_hex_record]) and scans a file line by line ([read_hex_file]).

    Python values are modelled as follows.
    - [str] is a list of 8-bit characters (the code points 0..255);
    - [int] is [Z], with every mask ([& 0xff], [~]) written out;
    - a raised exception is the [Raise] branch of [result]; the exception
      classes the program can meet are the constructors of [exn];
    - [print] appends one line to the output, a [list string]; it is taken
      to succeed, as it does whenever the standard output can encode the
      text, which holds of every ASCII text.

    The part named [Py] models the builtins the program calls ([str.strip],
    slicing, [int(s, 16)], [bytearray], [range], [str.format] on integers,
    [repr] of a message); everything after it follows [hex_parser.py]
    function by function, under the names of the source. *)

From Stdlib Require Import ZArith List Bool Ascii String Lia FinFun.
From Stdlib Require Import DecimalString.
Import ListNotations.

Local Open Scope Z_scope.

(** ** Exceptions and the result of a call *)

(** Why a [ValueError] was raised: [int] met an invalid literal, or
    [bytearray] met a value outside [range(0, 256)]. *)
Inductive value_error : Type :=
| InvalidLiteral (literal : list ascii)
| ByteOutOfRange.

(** [HexRecordError] is the program's own exception class (its [value] is
    the message); [ValueError] and [IndexError] are builtin ones. *)
Inductive exn : Type :=
| HexRecordError (value : string)
| ValueError (why : value_error)
| IndexError.

Inductive result (A : Type) : Type :=
| Return (a : A)
| Raise (e : exn).

Arguments Return {A} a.
Arguments Raise {A} e.

Definition bind {A B : Type} (m : result A) (k : A -> result B) : result B :=
  match m with
  | Return a => k a
  | Raise e => Raise e
  end.

Notation "x <- m ;; k" := (bind m (fun x => k))
  (at level 61, m at next level, right associativity).
Notation "m ;;; k" := (bind m (fun _ => k))
  (at level 61, right associativity).

(** A [for] loop that appends [f x] for each [x], stopping at the first
    exception. *)
Fixpoint for_append {A B : Type} (f : A -> result B) (xs : list A)
  : result (list B) :=
  match xs with
  | [] => Return []
  | x :: xs' => y <- f x ;; ys <- for_append f xs' ;; Return (y :: ys)
  end.

(** A [for] loop that threads an accumulator. *)
Fixpoint for_acc {A S : Type} (f : S -> A -> result S) (s : S) (xs : list A)
  : result S :=
  match xs with
  | [] => Return s
  | x :: xs' => s' <- f s x ;; for_acc f s' xs'
  end.

(** ** The builtins *)

Module Py.

Definition str : Type := list ascii.

Definition ord (c : ascii) : Z := Z.of_N (N_of_ascii c).

(** [len] of a string or of a sequence. *)
Definition len {A : Type} (s : list A) : Z := Z.of_nat (List.length s).

(** [str.isspace] on one character, for the code points below 256. *)
Definition unicode_isspace (c : ascii) : bool :=
  let n := ord c in
  ((9 <=? n) && (n <=? 13)) || ((28 <=? n) && (n <=? 32))
  || (n =? 133) || (n =? 160).

(** The C-locale [isspace] that the integer parser uses. *)
Definition ascii_isspace (c : ascii) : bool :=
  let n := ord c in
  ((9 <=? n) && (n <=? 13)) || (n =? 32).

Fixpoint lstrip (s : str) : str :=
  match s with
  | c :: s' => if unicode_isspace c then lstrip s' else s
  | [] => []
  end.

Definition rstrip (s : str) : str := rev (lstrip (rev s)).

(** [s.strip()] *)
Definition strip (s : str) : str := rstrip (lstrip s).

(** A slice bound clipped as Python does: a negative bound counts from
    the end, and every bound is brought into [0..len]. *)
Definition clip (n i : Z) : Z :=
  if i <? 0 then Z.max 0 (i + n) else Z.min i n.

(** [s[i:j]] *)
Definition slice (s : str) (i j : Z) : str :=
  let lo := clip (len s) i in
  let hi := clip (len s) j in
  firstn (Z.to_nat (hi - lo)) (skipn (Z.to_nat lo) s).

(** [s[i:]] *)
Definition slice_from (s : str) (i : Z) : str := slice s i (len s).

(** [s[0]] *)
Definition item0 (s : str) : result ascii :=
  match s with
  | c :: _ => Return c
  | [] => Raise IndexError
  end.

(** [range(0, n)] *)
Definition range (n : Z) : list Z :=
  map Z.of_nat (seq 0 (Z.to_nat n)).

(** The value of a digit in bases up to 36: ['0'..'9'], then the letters
    of either case. *)
Definition digit_value (c : ascii) : option Z :=
  let n := ord c in
  if (48 <=? n) && (n <=? 57) then Some (n - 48)
  else if (97 <=? n) && (n <=? 122) then Some (n - 97 + 10)
  else if (65 <=? n) && (n <=? 90) then Some (n - 65 + 10)
  else None.

Definition hex_digit (c : ascii) : option Z :=
  match digit_value c with
  | Some d => if d <? 16 then Some d else None
  | None => None
  end.

(** Before parsing, [int] maps every non-ASCII space to [' '] and stops
    at the first other non-ASCII character, which it replaces by ['?']
    (no decimal digit lies between 127 and 255). *)
Fixpoint to_ascii_spaces (s : str) : str :=
  match s with
  | [] => []
  | c :: s' =>
      if ord c <? 127 then c :: to_ascii_spaces s'
      else if unicode_isspace c then " "%char :: to_ascii_spaces s'
      else ["?"%char]
  end.

Fixpoint skip_spaces (s : str) : str :=
  match s with
  | c :: s' => if ascii_isspace c then skip_spaces s' else s
  | [] => []
  end.

Definition is_char (c : ascii) (n : Z) : bool := ord c =? n.

(** An optional sign. *)
Definition take_sign (s : str) : Z * str :=
  match s with
  | c :: s' =>
      if is_char c 43 then (1, s')
      else if is_char c 45 then (-1, s')
      else (1, s)
  | [] => (1, [])
  end.

(** An optional [0x] or [0X]. *)
Definition take_prefix (s : str) : str :=
  match s with
  | c0 :: c1 :: s' =>
      if is_char c0 48 && (is_char c1 120 || is_char c1 88) then s' else s
  | _ => s
  end.

(** The longest run of hexadecimal digits: its value (from [acc]), how
    many digits it has, and what follows it. *)
Fixpoint take_digits (acc : Z) (count : nat) (s : str) : Z * nat * str :=
  match s with
  | c :: s' =>
      match hex_digit c with
      | Some d => take_digits (16 * acc + d) (S count) s'
      | None => (acc, count, s)
      end
  | [] => (acc, count, [])
  end.

(** [int(s, 16)]: spaces, sign, prefix, at least one digit, spaces, and
    nothing else. An underscore is no digit: where Python allows one, it
    stands between two digits, which takes three characters, and the
    program passes fields of two. *)
Definition int16 (s : str) : result Z :=
  let '(sign, s1) := take_sign (skip_spaces (to_ascii_spaces s)) in
  let '(v, count, s2) := take_digits 0 0 (take_prefix s1) in
  match count, skip_spaces s2 with
  | S _, [] => Return (sign * v)
  | _, _ => Raise (ValueError (InvalidLiteral s))
  end.

(** [bytearray(xs)] of a list of integers. *)
Definition bytearray (xs : list Z) : result (list Z) :=
  if forallb (fun x => (0 <=? x) && (x <? 256)) xs then Return xs
  else Raise (ValueError ByteOutOfRange).

(** ["{0}".format(n)] of an integer. *)
Definition format_int (n : Z) : string :=
  NilZero.string_of_int (Z.to_int n).

(** [repr] of a message of printable ASCII characters with neither a
    quote nor a backslash in it (every message of this program is one). *)
Definition repr (s : string) : string := ("'" ++ s ++ "'")%string.

Definition of_string (s : string) : str := list_ascii_of_string s.
Definition to_string (s : str) : string := string_of_list_ascii s.

End Py.

(** ** The program *)

Definition HEX_DATA : Z := 0.
Definition HEX_EOF : Z := 1.
Definition HEX_EXTENDED_SEGMENT_ADDRESS : Z := 2.
Definition HEX_EXTENDED_LINEAR_ADDRESS : Z := 4.

(** The dictionary of the known record types, in the order of the source. *)
Definition hex_record_types : list (Z * string) :=
  [ (HEX_DATA, "data record"%string);
    (HEX_EOF, "end of file record"%string);
    (HEX_EXTENDED_SEGMENT_ADDRESS, "extended segment address"%string);
    (HEX_EXTENDED_LINEAR_ADDRESS, "extended linear address"%string) ].

(** [d[k]] when [k in d]. *)
Fixpoint lookup (k : Z) (d : list (Z * string)) : option string :=
  match d with
  | [] => None
  | (k', v) :: d' => if k =? k' then Some v else lookup k d'
  end.

Record HexRecord : Type := mkHexRecord {
  data_count : Z;
  address : Z;
  absolute_address : Z;
  type : Z;
  data : list Z;
  checksum : Z;
  valid : bool
}.

(** [HexRecord()] *)
Definition HexRecord_init : HexRecord :=
  {| data_count := 0; address := 0; absolute_address := 0; type := HEX_DATA;
     data := []; checksum := 0; valid := false |}.

(** [HexRecord.print_type]: the line it prints. *)
Definition print_type (self : HexRecord) : string :=
  match lookup (type self) hex_record_types with
  | Some name => name
  | None => ("Unknown type " ++ Py.format_int (type self))%string
  end.

Definition get_hex_record_byte (record : Py.str) (n : Z) : result Z :=
  let index := 1 + (n * 2) in
  Py.int16 (Py.slice record index (index + 2)).

Definition get_hex_record_byte_count (record : Py.str) : Z :=
  (Py.len record - 1) / 2.

Definition get_hex_record_data_count (record : Py.str) : result Z :=
  get_hex_record_byte record 0.

Definition get_hex_record_address (record : Py.str) : result Z :=
  hi_byte <- get_hex_record_byte record 1 ;;
  lo_byte <- get_hex_record_byte record 2 ;;
  Return (Z.shiftl hi_byte 8 + lo_byte).

Definition get_hex_record_type (record : Py.str) : result Z :=
  get_hex_record_byte record 3.

Definition get_hex_record_data_byte (record : Py.str) (n : Z) : result Z :=
  get_hex_record_byte record (4 + n).

Definition get_hex_record_checksum (record : Py.str) : result Z :=
  Py.int16 (Py.slice_from record (-2)).

Definition get_hex_record_data_content (record : Py.str) : result (list Z) :=
  let byte_count := get_hex_record_byte_count record - 1 in
  data_content <- for_append (get_hex_record_byte record) (Py.range byte_count) ;;
  Py.bytearray data_content.

Definition calculate_hex_record_checksum (record : Py.str) : result Z :=
  let byte_count := get_hex_record_byte_count record - 1 in
  checksum <-
    for_acc (fun checksum n =>
               b <- get_hex_record_byte record n ;;
               Return (Z.land (checksum + b) 255))
            0 (Py.range byte_count) ;;
  Return (Z.land (1 + Z.land (Z.lnot checksum) 255) 255).

Definition too_short : string :=
  "Hex record too short (minimum length 11 bytes)".
Definition not_odd : string :=
  "Hex record length must be an odd number".
Definition no_colon : string :=
  "Hex record must begin with a colon".
Definition count_mismatch : string :=
  "Hex record data count does not mach actual content".
Definition checksum_mismatch (a b : Z) : string :=
  ("Checksum does not mach: record=" ++ Py.format_int a
   ++ ", calculated=" ++ Py.format_int b)%string.

Definition parse_hex_record (line : Py.str) : result HexRecord :=
  let hex_record := HexRecord_init in
  let line := Py.strip line in
  let length := Py.len line in
  if length <? 11 then Raise (HexRecordError too_short) else
  if negb (length mod 2 =? 1) then Raise (HexRecordError not_odd) else
  c <- Py.item0 line ;;
  if negb (Ascii.eqb c ":") then Raise (HexRecordError no_colon) else
  data_count <- get_hex_record_data_count line ;;
  if negb (length =? 11 + data_count * 2)
  then Raise (HexRecordError count_mismatch) else
  address <- get_hex_record_address line ;;
  type <- get_hex_record_type line ;;
  data <- get_hex_record_data_content line ;;
  checksum <- get_hex_record_checksum line ;;
  calculated_checksum <- calculate_hex_record_checksum line ;;
  if negb (checksum =? calculated_checksum)
  then Raise (HexRecordError (checksum_mismatch checksum calculated_checksum))
  else
  Return {| data_count := data_count;
            address := address;
            absolute_address := absolute_address hex_record;
            type := type;
            data := data;
            checksum := checksum;
            valid := true |}.

(** [is_valid_hex_record]: the value it returns and the lines it prints.
    Only [HexRecordError] is caught; any other exception leaves the call,
    before anything is printed. *)
Definition is_valid_hex_record (line : Py.str) : result (bool * list string) :=
  match parse_hex_record line with
  | Return hex_record => Return (valid hex_record, [print_type hex_record])
  | Raise (HexRecordError value) => Return (false, [Py.repr value])
  | Raise e => Raise e
  end.

(** What [open(filename)] gives: the lines of the file, or one of the
    failures that [read_hex_file] tells apart. *)
Inductive opened : Type :=
| Lines (f : list Py.str)
| FileNotFoundError
| IsADirectoryError
| OtherError.

(** The [for line in f] loop of [read_hex_file]: the lines printed, and the
    exception that ended the loop, if one did. Every [print] is taken to
    succeed: the loop is the one of the source for the lines whose echo the
    standard output can encode, so for every line of ASCII characters. *)
Fixpoint read_lines (f : list Py.str) : list string * option exn :=
  match f with
  | [] => ([], None)
  | line :: f' =>
      match is_valid_hex_record line with
      | Return (ok, printed) =>
          let echo := if negb ok then [Py.to_string (Py.strip line)] else [] in
          let '(rest, e) := read_lines f' in
          (printed ++ echo ++ rest, e)
      | Raise e => ([], Some e)
      end
  end.

(** [read_hex_file]: everything it prints, when the standard output can
    encode it (see [read_lines]). *)
Definition read_hex_file (filename : string) (file : opened) : list string :=
  match file with
  | Lines f =>
      match read_lines f with
      | (printed, None) => printed
      | (printed, Some _) =>
          printed ++ [("Error while reading file " ++ filename)%string]
      end
  | FileNotFoundError => [("File not found " ++ filename)%string]
  | IsADirectoryError => [(filename ++ " is a directory")%string]
  | OtherError => [("Error while reading file " ++ filename)%string]
  end.

(** ** Notions used in the statements *)

(** A line of text, written as a string literal. *)
Definition line (s : string) : Py.str := Py.of_string s.
Definition CR : string := String (ascii_of_nat 13) EmptyString.
Definition LF : string := String (ascii_of_nat 10) EmptyString.

(** The sum of a list of bytes. *)
Definition sum (bs : list Z) : Z := fold_right Z.add 0 bs.

(** The two's complement of the sum of [bs], on 8 bits. *)
Definition twos_complement (bs : list Z) : Z := (256 - sum bs mod 256) mod 256.

(** [ds] are the [n] data bytes of [record], in order: the bytes that
    [get_hex_record_data_byte] decodes at [0], ..., [n - 1]. *)
Definition data_bytes (record : Py.str) (n : Z) (ds : list Z) : Prop :=
  Forall2 (fun i d => get_hex_record_data_byte record i = Return d)
          (Py.range n) ds.

(** The checksum recomputed from the fields of a record alone: its byte
    count, the two bytes of its address, its type and its data. *)
Definition recomputed_checksum (r : HexRecord) : Z :=
  twos_complement
    (data_count r :: address r / 256 :: address r mod 256 :: type r :: data r).

(** The checksum field of [record] is correct: it decodes, and to the
    value that [calculate_hex_record_checksum] computes. *)
Definition checksum_correct (record : Py.str) : Prop :=
  exists c, get_hex_record_checksum record = Return c
            /\ calculate_hex_record_checksum record = Return c.

(** No header field after the byte count decodes to a negative number. *)
Definition header_not_negative (record : Py.str) : bool :=
  forallb (fun n => match get_hex_record_byte record n with
                    | Return v => 0 <=? v
                    | Raise _ => true
                    end)
          [1; 2; 3].

(** [parse_hex_record] without its second check, the one on the parity of
    the length; nothing else is changed. *)
Definition parse_hex_record_no_odd_check (line : Py.str) : result HexRecord :=
  let hex_record := HexRecord_init in
  let line := Py.strip line in
  let length := Py.len line in
  if length <? 11 then Raise (HexRecordError too_short) else
  c <- Py.item0 line ;;
  if negb (Ascii.eqb c ":") then Raise (HexRecordError no_colon) else
  data_count <- get_hex_record_data_count line ;;
  if negb (length =? 11 + data_count * 2)
  then Raise (HexRecordError count_mismatch) else
  address <- get_hex_record_address line ;;
  type <- get_hex_record_type line ;;
  data <- get_hex_record_data_content line ;;
  checksum <- get_hex_record_checksum line ;;
  calculated_checksum <- calculate_hex_record_checksum line ;;
  if negb (checksum =? calculated_checksum)
  then Raise (HexRecordError (checksum_mismatch checksum calculated_checksum))
  else
  Return {| data_count := data_count;
            address := address;
            absolute_address := absolute_address hex_record;
            type := type;
            data := data;
            checksum := checksum;
            valid := true |}.

(** The letters [A]..[F] in lower case, every other character unchanged. *)
Definition hex_lower (c : ascii) : ascii :=
  let n := Py.ord c in
  if (65 <=? n) && (n <=? 70) then ascii_of_N (Z.to_N (n + 32)) else c.

(** The letters [a]..[f] in upper case, every other character unchanged. *)
Definition hex_upper (c : ascii) : ascii :=
  let n := Py.ord c in
  if (97 <=? n) && (n <=? 102) then ascii_of_N (Z.to_N (n - 32)) else c.

(** Two strings that differ at most in the case of their hexadecimal
    digits. *)
Definition hex_case_eq (s s' : Py.str) : Prop :=
  map hex_lower s = map hex_lower s'.

(** The outcome of a call with the text that an invalid-literal error
    quotes read up to the case of its hexadecimal digits; a returned value
    and every other exception are kept as they are. *)
Definition outcome {A : Type} (m : result A) : result A :=
  match m with
  | Raise (ValueError (InvalidLiteral s)) =>
      Raise (ValueError (InvalidLiteral (map hex_lower s)))
  | _ => m
  end.

(** Every character of the text is an ASCII character: a text that
    [print] can write to any standard output. *)
Definition is_ascii (s : Py.str) : bool :=
  forallb (fun c => Py.ord c <? 128) s.

(** The line is parsed, or rejected with a [HexRecordError]. *)
Definition recoverable (l : Py.str) : bool :=
  match parse_hex_record l with
  | Return _ | Raise (HexRecordError _) => true
  | Raise _ => false
  end.

(** What the scan prints for one recoverable line: the name of its type, or
    the message of the error and then the stripped line. *)
Definition report (l : Py.str) : list string :=
  match parse_hex_record l with
  | Return r => [print_type r]
  | Raise (HexRecordError value) => [Py.repr value; Py.to_string (Py.strip l)]
  | Raise _ => []
  end.

(** [record] passes every check of [parse_hex_record] and decodes to the
    fields of [r]. *)
Definition accepted (record : Py.str) (r : HexRecord) : Prop :=
  11 <= Py.len record
  /\ Py.len record mod 2 = 1
  /\ Py.item0 record = Return ":"%char
  /\ get_hex_record_data_count record = Return (data_count r)
  /\ Py.len record = 11 + data_count r * 2
  /\ get_hex_record_address record = Return (address r)
  /\ get_hex_record_type record = Return (type r)
  /\ get_hex_record_data_content record = Return (data r)
  /\ get_hex_record_checksum record = Return (checksum r)
  /\ calculate_hex_record_checksum record = Return (checksum r)
  /\ absolute_address r = 0
  /\ valid r = true.

(** The characters of field [k] of a record, [record[1 + 2k : 3 + 2k]]:
    what [get_hex_record_byte] passes to [int] for the index [k]. *)
Definition field (record : Py.str) (k : nat) : Py.str :=
  firstn 2 (skipn (1 + 2 * k) record).

(** A field that the parser reads, and that did not decode. *)
Definition undecoded_field (s : Py.str) (e : exn) : Prop :=
  exists n,
    0 <= n /\ 1 + n * 2 + 2 <= Py.len s
    /\ get_hex_record_byte s n = Raise e
    /\ e = ValueError (InvalidLiteral (Py.slice s (1 + n * 2) (1 + n * 2 + 2))).

(** The bytes that a string of hexadecimal digits writes, two digits a
    byte; [None] when a character is no hexadecimal digit or the digits are
    odd in number. *)
Fixpoint hex_bytes (s : Py.str) : option (list Z) :=
  match s with
  | [] => Some []
  | c1 :: c2 :: s' =>
      match Py.hex_digit c1, Py.hex_digit c2, hex_bytes s' with
      | Some d1, Some d2, Some bs => Some (16 * d1 + d2 :: bs)
      | _, _, _ => None
      end
  | [_] => None
  end.

(** ** Sample lines *)

(** A data record of three bytes at address 0x0030. *)
Definition sample_record : Py.str := line (":0300300002337A1E" ++ LF).

(** What [parse_hex_record] returns for [sample_record]. *)
Definition sample_fields : HexRecord :=
  {| data_count := 3; address := 48; absolute_address := 0; type := 0;
     data := [3; 0; 48; 0; 2; 51; 122]; checksum := 30; valid := true |}.

(** The end-of-file record. *)
Definition eof_record : Py.str := line ":00000001FF".

(** An end-of-file record whose address field is not hexadecimal. *)
Definition bad_digit_record : Py.str := line (":00zz0001FF" ++ LF).

(** The line of the first scenario of the description, and the same line
    with the checksum field that the scenario gives. *)
Definition scenario_1 : Py.str := line (":0000000100" ++ CR ++ LF).
Definition scenario_1_FF : Py.str := line (":00000001FF" ++ CR ++ LF).

(** The end-of-file record with a wrong checksum field. *)
Definition scenario_3 : Py.str := line (":00000001FE" ++ LF).

(** Ten characters. *)
Definition ten_characters : Py.str := line (":000000011" ++ LF).


(** One extended linear address record, written in two ways. *)
Definition upper_case_record : Py.str := line (":02000004FFFFFC" ++ LF).
Definition lower_case_record : Py.str := line (":02000004fFfffc" ++ LF).

(** A record whose address field carries a minus sign. *)
Definition minus_record : Py.str := line ":00-f0001FF".

(** [sample_record] with the data byte [33] written [34]. *)
Definition corrupted_record : Py.str := line (":0300300002347A1E" ++ LF).

(** [sample_record] with the checksum field [1E] written [1F]. *)
Definition wrong_checksum_record : Py.str := line (":0300300002337A1F" ++ LF).

(** * Properties *)

Ltac zlia := Z.div_mod_to_equations; lia.

(** ** Calls and loops *)

Section Results.

Context {A B : Type}.

Lemma bind_Return (m : result A) (k : A -> result B) (b : B) :
  bind m k = Return b <-> exists a, m = Return a /\ k a = Return b.
Proof.
  split.
  - destruct m as [a | e]; simpl; intros H; [eauto | discriminate].
  - intros (a & -> & H). exact H.
Qed.

Lemma bind_ext (m : result A) (k k' : A -> result B) :
  (forall a, m = Return a -> k a = k' a) -> bind m k = bind m k'.
Proof.
  destruct m; simpl; auto.
Qed.

Lemma for_append_Forall2 (f : A -> result B) (xs : list A) (ys : list B) :
  for_append f xs = Return ys <-> Forall2 (fun x y => f x = Return y) xs ys.
Proof.
  revert ys. induction xs as [| x xs IH]; intros ys; simpl.
  - split; intros H.
    + injection H as <-. constructor.
    + inversion H. reflexivity.
  - split.
    + destruct (f x) as [y |] eqn:Hy; simpl; [| discriminate].
      destruct (for_append f xs) as [ys' |] eqn:E; simpl; [| discriminate].
      intros H. injection H as <-. constructor; [assumption | now apply IH].
    + intros H. inversion H as [| ? y ? ys' Hy Hys]; subst.
      apply IH in Hys. rewrite Hy, Hys. reflexivity.
Qed.

End Results.

(** The checksum loop reads the same bytes as the data loop, and folds
    them. *)
Lemma for_acc_fold {A : Type} (f : A -> result Z) (xs : list A) :
  forall (c : Z) (ys : list Z),
    Forall2 (fun x y => f x = Return y) xs ys ->
    for_acc (fun c n => b <- f n ;; Return (Z.land (c + b) 255)) c xs
    = Return (fold_left (fun c b => Z.land (c + b) 255) ys c).
Proof.
  induction xs as [| x xs IH]; intros c ys H; inversion H; subst; simpl.
  - reflexivity.
  - match goal with E : f x = _ |- _ => rewrite E end. simpl. now apply IH.
Qed.

Lemma for_acc_reads {A : Type} (f : A -> result Z) (xs : list A) :
  forall c c',
    for_acc (fun c n => b <- f n ;; Return (Z.land (c + b) 255)) c xs
    = Return c' ->
    exists ys, Forall2 (fun x y => f x = Return y) xs ys.
Proof.
  induction xs as [| x xs IH]; intros c c' H; simpl in H.
  - exists []. constructor.
  - destruct (f x) as [y |] eqn:E; simpl in H; [| discriminate].
    destruct (IH _ _ H) as [ys Hys]. exists (y :: ys). now constructor.
Qed.

(** ** Masks *)

Lemma land_255 (x : Z) : Z.land x 255 = x mod 256.
Proof.
  change 255 with (Z.ones 8). now rewrite Z.land_ones by lia.
Qed.

Lemma fold_mask (bs : list Z) :
  forall c, 0 <= c < 256 ->
    fold_left (fun c b => Z.land (c + b) 255) bs c = (c + sum bs) mod 256.
Proof.
  induction bs as [| b bs IH]; intros c Hc; simpl.
  - rewrite Z.add_0_r. symmetry. now apply Z.mod_small.
  - rewrite IH by (rewrite land_255; apply Z.mod_pos_bound; lia).
    rewrite land_255, Zplus_mod_idemp_l. f_equal. lia.
Qed.

Lemma complement_mask (c : Z) :
  0 <= c < 256 ->
  Z.land (1 + Z.land (Z.lnot c) 255) 255 = (256 - c) mod 256.
Proof.
  intros Hc. rewrite !land_255. unfold Z.lnot. zlia.
Qed.

(** ** [range] *)

Lemma range_length (n : Z) : List.length (Py.range n) = Z.to_nat n.
Proof.
  unfold Py.range. now rewrite length_map, length_seq.
Qed.

Lemma range_header (n : Z) :
  0 <= n ->
  Py.range (n + 4) = 0 :: 1 :: 2 :: 3 :: map (fun i => 4 + i) (Py.range n).
Proof.
  intros Hn. unfold Py.range.
  replace (Z.to_nat (n + 4)) with (4 + Z.to_nat n)%nat by lia.
  rewrite seq_app, map_app.
  change (map Z.of_nat (seq 0 4)) with [0; 1; 2; 3].
  cbn [app]. do 4 f_equal.
  rewrite map_map, <- (seq_shift _ 3), <- (seq_shift _ 2),
    <- (seq_shift _ 1), <- (seq_shift _ 0), !map_map.
  apply map_ext. intros i. lia.
Qed.

(** ** What [parse_hex_record] accepts *)

Lemma parse_hex_record_accepted (l : Py.str) (r : HexRecord) :
  parse_hex_record l = Return r <-> accepted (Py.strip l) r.
Proof.
  unfold parse_hex_record, accepted.
  generalize (Py.strip l). intros s. split.
  - destruct (Py.len s <? 11) eqn:H1; [discriminate |].
    destruct (Py.len s mod 2 =? 1) eqn:H2; cbn [negb]; [| discriminate].
    destruct (Py.item0 s) as [c |] eqn:H3; cbn [bind]; [| discriminate].
    destruct (Ascii.eqb c ":") eqn:H4; cbn [negb]; [| discriminate].
    destruct (get_hex_record_data_count s) as [dc |] eqn:H5;
      cbn [bind]; [| discriminate].
    destruct (Py.len s =? 11 + dc * 2) eqn:H6; cbn [negb]; [| discriminate].
    destruct (get_hex_record_address s) as [a |] eqn:H7;
      cbn [bind]; [| discriminate].
    destruct (get_hex_record_type s) as [t |] eqn:H8;
      cbn [bind]; [| discriminate].
    destruct (get_hex_record_data_content s) as [d |] eqn:H9;
      cbn [bind]; [| discriminate].
    destruct (get_hex_record_checksum s) as [c1 |] eqn:H10;
      cbn [bind]; [| discriminate].
    destruct (calculate_hex_record_checksum s) as [c2 |] eqn:H11;
      cbn [bind]; [| discriminate].
    destruct (c1 =? c2) eqn:H12; cbn [negb]; [| discriminate].
    intros H. injection H as <-. cbn.
    apply Ascii.eqb_eq in H4. apply Z.eqb_eq in H2, H6, H12.
    apply Z.ltb_ge in H1. subst. repeat split; auto.
  - intros (H1 & H2 & H3 & H4 & H5 & H6 & H7 & H8 & H9 & H10 & H11 & H12).
    apply Z.ltb_ge in H1. rewrite H1.
    rewrite H2, H3. cbn [bind negb Z.eqb Pos.eqb].
    rewrite Ascii.eqb_refl, H4. cbn [bind negb].
    rewrite <- H5, Z.eqb_refl, H6, H7, H8, H9, H10. cbn [bind negb].
    rewrite Z.eqb_refl. cbn [negb].
    destruct r; cbn in *. subst. reflexivity.
Qed.

Lemma Forall2_map_left {A B C : Type} (P : B -> C -> Prop) (g : A -> B)
  (xs : list A) (ys : list C) :
  Forall2 P (map g xs) ys <-> Forall2 (fun x y => P (g x) y) xs ys.
Proof.
  revert ys. induction xs as [| x xs IH]; intros ys; simpl; split; intros H;
    inversion H; subst; constructor; auto; now apply IH.
Qed.

Lemma bytearray_Return (xs ys : list Z) :
  Py.bytearray xs = Return ys <->
  xs = ys /\ Forall (fun x => 0 <= x < 256) xs.
Proof.
  unfold Py.bytearray.
  destruct (forallb _ xs) eqn:E.
  - rewrite forallb_forall in E. split.
    + intros H. injection H as <-. split; [reflexivity |].
      apply Forall_forall. intros x Hx. apply E in Hx. lia.
    + now intros [<- _].
  - split; [discriminate |]. intros [_ H].
    rewrite Forall_forall in H.
    assert (forallb (fun x => (0 <=? x) && (x <? 256)) xs = true) as E'.
    { apply forallb_forall. intros x Hx. apply H in Hx. lia. }
    congruence.
Qed.

(** The bytes that both loops of the parser read, for a record of the
    declared length. *)
Lemma loop_range (s : Py.str) (dc : Z) :
  Py.len s = 11 + dc * 2 ->
  get_hex_record_byte_count s - 1 = dc + 4.
Proof.
  unfold get_hex_record_byte_count. intros ->. zlia.
Qed.

Lemma calculate_hex_record_checksum_Return (s : Py.str) (bs : list Z) :
  Forall2 (fun n b => get_hex_record_byte s n = Return b)
          (Py.range (get_hex_record_byte_count s - 1)) bs ->
  calculate_hex_record_checksum s = Return (twos_complement bs).
Proof.
  intros H. unfold calculate_hex_record_checksum.
  rewrite (for_acc_fold _ _ 0 bs H). cbn [bind].
  rewrite fold_mask by lia. f_equal.
  rewrite complement_mask by (apply Z.mod_pos_bound; lia).
  reflexivity.
Qed.

Lemma accepted_fields (s : Py.str) (r : HexRecord) :
  accepted s r ->
  exists hi lo ds,
    get_hex_record_byte s 1 = Return hi
    /\ get_hex_record_byte s 2 = Return lo
    /\ data_bytes s (data_count r) ds
    /\ Forall (fun b => 0 <= b < 256) (data_count r :: hi :: lo :: type r :: ds)
    /\ address r = 256 * hi + lo
    /\ data r = data_count r :: hi :: lo :: type r :: ds
    /\ checksum r = twos_complement (data_count r :: hi :: lo :: type r :: ds).
Proof.
  intros (H1 & H2 & H3 & H4 & H5 & H6 & H7 & H8 & H9 & H10 & H11 & H12).
  pose proof (loop_range s _ H5) as Hn.
  assert (0 <= data_count r) as Hdc by lia.
  unfold get_hex_record_data_content in H8.
  apply bind_Return in H8. destruct H8 as (bs & Hbs & Hba).
  apply bytearray_Return in Hba. destruct Hba as [<- Hrange].
  apply for_append_Forall2 in Hbs.
  pose proof (calculate_hex_record_checksum_Return s bs Hbs) as Hc.
  rewrite Hn, range_header in Hbs by assumption.
  inversion Hbs as [| ? b0 ? bs0 E0 Hbs0]; subst. clear Hbs.
  inversion Hbs0 as [| ? b1 ? bs1 E1 Hbs1]; subst. clear Hbs0.
  inversion Hbs1 as [| ? b2 ? bs2 E2 Hbs2]; subst. clear Hbs1.
  inversion Hbs2 as [| ? b3 ? ds E3 Hds]; subst. clear Hbs2.
  apply Forall2_map_left in Hds.
  unfold get_hex_record_data_count in H4. rewrite H4 in E0.
  unfold get_hex_record_type in H7. rewrite H7 in E3.
  unfold get_hex_record_address in H6. rewrite E1, E2 in H6. cbn [bind] in H6.
  injection E0 as <-. injection E3 as <-.
  assert (address r = Z.shiftl b1 8 + b2) as Ha by congruence.
  rewrite Z.shiftl_mul_pow2 in Ha by lia. change (2 ^ 8) with 256 in Ha.
  exists b1, b2, ds. repeat split; try assumption.
  - lia.
  - congruence.
Qed.

(** ** The fields of an accepted record *)

(** C10: for every line that [parse_hex_record] parses, the returned [data]
    holds exactly [data_count + 4] bytes: the byte-count byte, the high and
    the low byte of the address and the record-type byte (the bytes at
    offsets 0 to 3 of the record), followed by the [data_count] data bytes of
    the line, in that order. *)
Theorem data_is_header_then_data_bytes (l : Py.str) (r : HexRecord) :
  parse_hex_record l = Return r ->
  exists ds,
    data r
    = data_count r :: address r / 256 :: address r mod 256 :: type r :: ds
    /\ get_hex_record_byte (Py.strip l) 0 = Return (data_count r)
    /\ get_hex_record_byte (Py.strip l) 1 = Return (address r / 256)
    /\ get_hex_record_byte (Py.strip l) 2 = Return (address r mod 256)
    /\ get_hex_record_byte (Py.strip l) 3 = Return (type r)
    /\ data_bytes (Py.strip l) (data_count r) ds
    /\ Py.len ds = data_count r
    /\ Py.len (data r) = data_count r + 4.
Proof.
  intros H. apply parse_hex_record_accepted in H.
  destruct (accepted_fields _ _ H)
    as (hi & lo & ds & Hhi & Hlo & Hds & Hb & Ha & Hd & _).
  destruct H as (H1 & _ & _ & H4 & H5 & _ & H7 & _).
  inversion Hb as [| ? ? _ Hb1]; subst.
  inversion Hb1 as [| ? ? Rhi Hb2]; subst.
  inversion Hb2 as [| ? ? Rlo _]; subst.
  assert (address r / 256 = hi) as Ehi by zlia.
  assert (address r mod 256 = lo) as Elo by zlia.
  assert (Py.len ds = data_count r) as Hlen.
  { apply Forall2_length in Hds. rewrite range_length in Hds.
    unfold Py.len. lia. }
  exists ds. rewrite Ehi, Elo. repeat split; try assumption.
  rewrite Hd. unfold Py.len in *. cbn [List.length]. lia.
Qed.

Lemma data_is_header_then_data_bytes_witness :
  parse_hex_record sample_record = Return sample_fields
  /\ exists ds,
      data sample_fields = 3 :: 0 :: 48 :: 0 :: ds
      /\ get_hex_record_byte (Py.strip sample_record) 0 = Return 3
      /\ get_hex_record_byte (Py.strip sample_record) 1 = Return 0
      /\ get_hex_record_byte (Py.strip sample_record) 2 = Return 48
      /\ get_hex_record_byte (Py.strip sample_record) 3 = Return 0
      /\ data_bytes (Py.strip sample_record) 3 ds
      /\ Py.len ds = 3
      /\ Py.len (data sample_fields) = 3 + 4.
Proof.
  split; [vm_compute; reflexivity |].
  apply (data_is_header_then_data_bytes sample_record sample_fields).
  vm_compute. reflexivity.
Defined.

(** C3: for every line that [parse_hex_record] accepts, the decoded
    checksum field equals [(256 - (byte count + address high byte + address
    low byte + record type + sum of the data bytes of the line) mod 256)
    mod 256], every byte being on 8 bits; so a line is accepted only if its
    checksum field has this value. *)
Theorem checksum_field_is_twos_complement (l : Py.str) (r : HexRecord) :
  parse_hex_record l = Return r ->
  exists hi lo ds,
    get_hex_record_byte (Py.strip l) 0 = Return (data_count r)
    /\ get_hex_record_byte (Py.strip l) 1 = Return hi
    /\ get_hex_record_byte (Py.strip l) 2 = Return lo
    /\ get_hex_record_byte (Py.strip l) 3 = Return (type r)
    /\ data_bytes (Py.strip l) (data_count r) ds
    /\ Py.len ds = data_count r
    /\ Forall (fun b => 0 <= b < 256)
              (data_count r :: hi :: lo :: type r :: ds)
    /\ address r = 256 * hi + lo
    /\ get_hex_record_checksum (Py.strip l) = Return (checksum r)
    /\ checksum r
       = (256 - (data_count r + hi + lo + type r + sum ds) mod 256) mod 256.
Proof.
  intros H. apply parse_hex_record_accepted in H.
  destruct (accepted_fields _ _ H)
    as (hi & lo & ds & Hhi & Hlo & Hds & Hb & Ha & Hd & Hc).
  destruct H as (H1 & _ & _ & H4 & H5 & _ & H7 & _ & H9 & _).
  exists hi, lo, ds. repeat split; try assumption.
  - apply Forall2_length in Hds. rewrite range_length in Hds.
    unfold Py.len. lia.
  - rewrite Hc. unfold twos_complement, sum. cbn [fold_right].
    do 3 f_equal. lia.
Qed.

Lemma checksum_field_is_twos_complement_witness :
  parse_hex_record sample_record = Return sample_fields
  /\ exists hi lo ds,
      get_hex_record_byte (Py.strip sample_record) 0 = Return 3
      /\ get_hex_record_byte (Py.strip sample_record) 1 = Return hi
      /\ get_hex_record_byte (Py.strip sample_record) 2 = Return lo
      /\ get_hex_record_byte (Py.strip sample_record) 3 = Return 0
      /\ data_bytes (Py.strip sample_record) 3 ds
      /\ Py.len ds = 3
      /\ Forall (fun b => 0 <= b < 256) (3 :: hi :: lo :: 0 :: ds)
      /\ 48 = 256 * hi + lo
      /\ get_hex_record_checksum (Py.strip sample_record) = Return 30
      /\ 30 = (256 - (3 + hi + lo + 0 + sum ds) mod 256) mod 256.
Proof.
  split; [vm_compute; reflexivity |].
  apply (checksum_field_is_twos_complement sample_record sample_fields).
  vm_compute. reflexivity.
Defined.

(** ** Where the program leaves its description *)

(** C1: the end-of-file record [:00000001FF] declares no data byte, and
    [parse_hex_record] returns it with four bytes of data, the header of the
    record: the length of [data] is not [data_count]. *)
Theorem data_length_is_not_data_count :
  exists r,
    parse_hex_record eof_record = Return r
    /\ data_count r = 0
    /\ data r = [0; 0; 0; 1]
    /\ Py.len (data r) <> data_count r.
Proof.
  eexists. split; [vm_compute; reflexivity |]. cbn. repeat split. lia.
Qed.

(** C5: for the record [:00000001FF], the checksum recomputed from the
    returned fields (byte count, address bytes, type and every byte of
    [data]) is 254, and the stored checksum is 255: the header bytes that
    [data] holds are counted twice. *)
Theorem recomputed_checksum_is_not_checksum :
  exists r,
    parse_hex_record eof_record = Return r
    /\ checksum r = 255
    /\ recomputed_checksum r = 254.
Proof.
  eexists. split; [vm_compute; reflexivity |]. split; reflexivity.
Qed.

(** C4: the line [:00zz0001FF] has a field that is not hexadecimal, and
    [parse_hex_record] leaves with the [ValueError] of [int], not with a
    [HexRecordError]. *)
Theorem bad_digit_raises_ValueError :
  parse_hex_record bad_digit_record
  = Raise (ValueError (InvalidLiteral (line "zz"))).
Proof.
  vm_compute. reflexivity.
Qed.

(** C2: in a file whose first line is [:00zz0001FF] and whose second line is
    a valid end-of-file record, the scan prints one line, the message for a
    file that cannot be read: the failure of the first line is not reported
    as that of a line, and the second line is never parsed. *)
Theorem bad_digit_ends_the_scan :
  read_hex_file "records.hex" (Lines [bad_digit_record; line (":00000001FF" ++ LF)])
  = ["Error while reading file records.hex"%string]
  /\ read_hex_file "records.hex" (Lines [line (":00000001FF" ++ LF)])
     = ["end of file record"%string].
Proof.
  split; vm_compute; reflexivity.
Qed.

(** ** Scenario 1 *)

(** C6, as stated, fails: [:0000000100] is rejected for its checksum field,
    so it is not parsed into the record of the scenario, and the scan does
    not report an end-of-file record. *)
Lemma scenario_1_is_not_parsed :
  parse_hex_record scenario_1
  = Raise (HexRecordError (checksum_mismatch 0 255))
  /\ ~ (exists r,
          parse_hex_record scenario_1 = Return r
          /\ data_count r = 0 /\ address r = 0 /\ type r = 1 /\ data r = []
          /\ checksum r = 255)
  /\ read_hex_file "records.hex" (Lines [scenario_1])
     <> ["end of file record"%string].
Proof.
  assert (parse_hex_record scenario_1
          = Raise (HexRecordError (checksum_mismatch 0 255))) as E
      by (vm_compute; reflexivity).
  split; [exact E |]. split.
  - intros (r & H & _). rewrite E in H. discriminate.
  - vm_compute. discriminate.
Qed.

(** C6, amended: [:0000000100] followed by CR LF is rejected, its checksum
    field 0 not being the calculated 255, and the scan prints the message
    and the stripped line; the same record with the checksum field [FF] is
    parsed to byte count 0, address 0, type 1 and checksum 255, and the scan
    prints "end of file record". *)
Theorem scenario_1_checksum_field :
  parse_hex_record scenario_1
  = Raise (HexRecordError "Checksum does not mach: record=0, calculated=255")
  /\ read_hex_file "records.hex" (Lines [scenario_1])
     = ["'Checksum does not mach: record=0, calculated=255'"%string;
        ":0000000100"%string]
  /\ exists r,
      parse_hex_record scenario_1_FF = Return r
      /\ data_count r = 0 /\ address r = 0 /\ type r = 1
      /\ checksum r = 255 /\ valid r = true
      /\ read_hex_file "records.hex" (Lines [scenario_1_FF])
         = ["end of file record"%string].
Proof.
  split; [vm_compute; reflexivity |].
  split; [vm_compute; reflexivity |].
  eexists. split; [vm_compute; reflexivity |].
  cbn. repeat split. 
Qed.

(** ** The check on the parity of the length *)

(** [int] returns an integer or raises the [ValueError] that quotes its
    argument. *)
Lemma int16_cases (t : Py.str) :
  (exists v, Py.int16 t = Return v)
  \/ Py.int16 t = Raise (ValueError (InvalidLiteral t)).
Proof.
  unfold Py.int16.
  destruct (Py.take_sign _) as [sign s1].
  destruct (Py.take_digits _ _ _) as [[v count] s2].
  destruct count as [| count]; [now right |].
  destruct (Py.skip_spaces s2); [left; eauto | now right].
Qed.

Lemma parse_hex_record_odd_check (l : Py.str) :
  parse_hex_record l
  = if (11 <=? Py.len (Py.strip l))
       && negb (Py.len (Py.strip l) mod 2 =? 1)
    then Raise (HexRecordError not_odd)
    else parse_hex_record_no_odd_check l.
Proof.
  unfold parse_hex_record, parse_hex_record_no_odd_check.
  rewrite Z.leb_antisym.
  destruct (Py.len (Py.strip l) <? 11); cbn [negb andb]; [reflexivity |].
  destruct (Py.len (Py.strip l) mod 2 =? 1); reflexivity.
Qed.

(** Without the check, a line of even length is rejected all the same: by
    the check on the colon, by the decoding of the byte count, or by the
    check on the declared length, which is odd. *)
Lemma even_length_is_rejected (l : Py.str) :
  11 <= Py.len (Py.strip l) ->
  Py.len (Py.strip l) mod 2 <> 1 ->
  parse_hex_record_no_odd_check l = Raise (HexRecordError no_colon)
  \/ parse_hex_record_no_odd_check l = Raise (HexRecordError count_mismatch)
  \/ parse_hex_record_no_odd_check l
     = Raise (ValueError (InvalidLiteral (Py.slice (Py.strip l) 1 3))).
Proof.
  unfold parse_hex_record_no_odd_check.
  generalize (Py.strip l). intros s H11 Heven.
  apply Z.ltb_ge in H11. rewrite H11.
  destruct s as [| c s']; [discriminate |]. cbn [Py.item0 bind].
  destruct (Ascii.eqb c ":"); cbn [negb]; [| left; reflexivity].
  unfold get_hex_record_data_count, get_hex_record_byte.
  change (1 + 0 * 2) with 1. change (1 + 2) with 3.
  destruct (int16_cases (Py.slice (c :: s') 1 3)) as [[v ->] | ->];
    cbn [bind]; [| right; right; reflexivity].
  destruct (Py.len (c :: s') =? 11 + v * 2) eqn:E; cbn [negb].
  - apply Z.eqb_eq in E. exfalso. apply Heven. rewrite E. zlia.
  - right; left; reflexivity.
Qed.

(** C8: the parser without the check on the parity of the length accepts
    exactly the lines that [parse_hex_record] accepts, and returns the same
    record for each. *)
Theorem odd_check_never_decides (l : Py.str) (r : HexRecord) :
  parse_hex_record_no_odd_check l = Return r <-> parse_hex_record l = Return r.
Proof.
  rewrite parse_hex_record_odd_check.
  destruct (11 <=? Py.len (Py.strip l)) eqn:H11; cbn [andb]; [| reflexivity].
  destruct (Py.len (Py.strip l) mod 2 =? 1) eqn:Hodd; cbn [negb];
    [reflexivity |].
  apply Z.leb_le in H11. apply Z.eqb_neq in Hodd.
  destruct (even_length_is_rejected l H11 Hodd) as [E | [E | E]];
    rewrite E; split; discriminate.
Qed.

(** ** The range of a decoded field *)

Lemma hex_digit_range (c : ascii) (d : Z) :
  Py.hex_digit c = Some d -> 0 <= d < 16.
Proof.
  unfold Py.hex_digit, Py.digit_value.
  repeat match goal with
         | |- context [if ?b then _ else _] => destruct b eqn:?
         end; intros H; inversion H; subst; lia.
Qed.

Lemma take_digits_range (s : Py.str) :
  forall acc count v count' rest,
    Py.take_digits acc count s = (v, count', rest) ->
    0 <= acc ->
    0 <= v /\ v + 1 <= (acc + 1) * 16 ^ Py.len s.
Proof.
  unfold Py.len.
  induction s as [| c s IH]; intros acc count v count' rest H Hacc.
  - injection H as <- _ _. cbn. lia.
  - cbn [Py.take_digits] in H.
    assert (1 <= 16 ^ Z.of_nat (List.length s)) as Hpow
        by (apply Z.pow_le_mono_r with (b := 0); lia).
    replace (Z.of_nat (List.length (c :: s)))
      with (1 + Z.of_nat (List.length s)) by (cbn [List.length]; lia).
    rewrite Z.pow_add_r, Z.pow_1_r by lia.
    destruct (Py.hex_digit c) as [d |] eqn:Hd.
    + apply hex_digit_range in Hd.
      apply IH in H; [| lia]. destruct H as [H0 H1]. split; [assumption |].
      nia.
    + injection H as <- _ _. nia.
Qed.

Lemma to_ascii_spaces_length (s : Py.str) :
  Py.len (Py.to_ascii_spaces s) <= Py.len s.
Proof.
  unfold Py.len. induction s as [| c s IH]; cbn [Py.to_ascii_spaces].
  - lia.
  - destruct (Py.ord c <? 127); [cbn [List.length]; lia |].
    destruct (Py.unicode_isspace c); cbn [List.length]; lia.
Qed.

Lemma skip_spaces_length (s : Py.str) :
  Py.len (Py.skip_spaces s) <= Py.len s.
Proof.
  unfold Py.len. induction s as [| c s IH]; cbn [Py.skip_spaces].
  - lia.
  - destruct (Py.ascii_isspace c); cbn [List.length] in *; lia.
Qed.

Lemma take_sign_length (s : Py.str) (sign : Z) (s' : Py.str) :
  Py.take_sign s = (sign, s') ->
  (sign = 1 \/ sign = -1) /\ Py.len s' <= Py.len s.
Proof.
  unfold Py.len, Py.take_sign. destruct s as [| c s0].
  - intros H. injection H as <- <-. lia.
  - destruct (Py.is_char c 43); [| destruct (Py.is_char c 45)];
      intros H; injection H as <- <-; cbn [List.length]; lia.
Qed.

Lemma take_prefix_length (s : Py.str) :
  Py.len (Py.take_prefix s) <= Py.len s.
Proof.
  unfold Py.len, Py.take_prefix.
  destruct s as [| c0 [| c1 s']]; try lia.
  destruct (_ && _); cbn [List.length]; lia.
Qed.

(** An integer written on [n] characters is below [16 ^ n] in absolute
    value. *)
Lemma int16_range (t : Py.str) (v : Z) :
  Py.int16 t = Return v -> - 16 ^ Py.len t < v < 16 ^ Py.len t.
Proof.
  unfold Py.int16.
  destruct (Py.take_sign _) as [sign s1] eqn:Hsign.
  destruct (Py.take_digits _ _ _) as [[w count] s2] eqn:Hdigits.
  destruct count as [| count]; [discriminate |].
  destruct (Py.skip_spaces s2); [| discriminate].
  intros H. injection H as <-.
  apply take_sign_length in Hsign. destruct Hsign as [Hs Hlen1].
  apply take_digits_range in Hdigits; [| lia].
  pose proof (take_prefix_length s1) as Hlen2.
  pose proof (skip_spaces_length (Py.to_ascii_spaces t)) as Hlen3.
  pose proof (to_ascii_spaces_length t) as Hlen4.
  assert (16 ^ Py.len (Py.take_prefix s1) <= 16 ^ Py.len t) as Hpow.
  { apply Z.pow_le_mono_r; [lia |]. lia. }
  destruct Hs as [-> | ->]; lia.
Qed.

Lemma slice_two_length (s : Py.str) (i : Z) :
  0 <= i -> Py.len (Py.slice s i (i + 2)) <= 2.
Proof.
  intros Hi. unfold Py.slice, Py.len, Py.clip.
  rewrite length_firstn.
  destruct (i <? 0) eqn:E1; [lia |].
  destruct (i + 2 <? 0) eqn:E2; [lia |]. lia.
Qed.

Lemma get_hex_record_byte_range (s : Py.str) (n v : Z) :
  0 <= n -> get_hex_record_byte s n = Return v -> - 256 < v < 256.
Proof.
  unfold get_hex_record_byte. intros Hn H.
  apply int16_range in H.
  pose proof (slice_two_length s (1 + n * 2)) as Hlen.
  assert (16 ^ Py.len (Py.slice s (1 + n * 2) (1 + n * 2 + 2)) <= 16 ^ 2)
    as Hpow by (apply Z.pow_le_mono_r; lia).
  change (16 ^ 2) with 256 in Hpow. lia.
Qed.

(** ** The shortest records *)


(** X17: a stripped line of exactly 11 characters that begins with a
    colon, declares no data byte and has no negative address or type field
    is parsed if and only if its checksum field is correct; and a line whose
    stripped length is 10 fails with the "too short" error whatever it
    holds. *)
Theorem boundary_lengths (l : Py.str) :
  (Py.len (Py.strip l) = 11 ->
   Py.item0 (Py.strip l) = Return ":"%char ->
   get_hex_record_data_count (Py.strip l) = Return 0 ->
   header_not_negative (Py.strip l) = true ->
   ((exists r, parse_hex_record l = Return r)
    <-> checksum_correct (Py.strip l)))
  /\ (Py.len (Py.strip l) = 10 ->
      parse_hex_record l = Raise (HexRecordError too_short)).
Proof.
  split.
  - intros Hlen Hcolon Hcount Hheader. split.
    + intros [r Hr]. apply parse_hex_record_accepted in Hr.
      destruct Hr as (_ & _ & _ & _ & _ & _ & _ & _ & H9 & H10 & _).
      exists (checksum r). now split.
    + intros (c & Hc & Hcalc).
      assert (get_hex_record_byte_count (Py.strip l) - 1 = 4) as Hn
          by (unfold get_hex_record_byte_count; rewrite Hlen; reflexivity).
      pose proof Hcalc as Hreads.
      unfold calculate_hex_record_checksum in Hreads.
      apply bind_Return in Hreads. destruct Hreads as (c0 & Hreads & _).
      apply for_acc_reads in Hreads. destruct Hreads as [bs Hbs].
      pose proof (calculate_hex_record_checksum_Return _ _ Hbs) as Hcalc'.
      pose proof Hbs as Hbs'. rewrite Hn in Hbs'.
      change (Py.range 4) with [0; 1; 2; 3] in Hbs'.
      inversion Hbs' as [| ? b0 ? bs0 E0 Hbs0]; subst. clear Hbs'.
      inversion Hbs0 as [| ? b1 ? bs1 E1 Hbs1]; subst. clear Hbs0.
      inversion Hbs1 as [| ? b2 ? bs2 E2 Hbs2]; subst. clear Hbs1.
      inversion Hbs2 as [| ? b3 ? bs3 E3 Hbs3]; subst. clear Hbs2.
      inversion Hbs3; subst. clear Hbs3.
      unfold get_hex_record_data_count in Hcount.
      rewrite Hcount in E0. injection E0 as <-.
      unfold header_not_negative in Hheader. cbn [forallb] in Hheader.
      rewrite E1, E2, E3 in Hheader.
      pose proof (get_hex_record_byte_range _ 1 _ ltac:(lia) E1).
      pose proof (get_hex_record_byte_range _ 2 _ ltac:(lia) E2).
      pose proof (get_hex_record_byte_range _ 3 _ ltac:(lia) E3).
      exists {| data_count := 0; address := Z.shiftl b1 8 + b2;
                absolute_address := 0; type := b3; data := [0; b1; b2; b3];
                checksum := c; valid := true |}.
      apply parse_hex_record_accepted. unfold accepted. cbn.
      rewrite Hlen. repeat split; try assumption; try lia.
      * unfold get_hex_record_address. now rewrite E1, E2.
      * unfold get_hex_record_data_content.
        apply for_append_Forall2 in Hbs. rewrite Hbs. cbn [bind].
        apply bytearray_Return. split; [reflexivity |].
        repeat constructor; lia.
  - intros Hlen. unfold parse_hex_record. now rewrite Hlen.
Qed.

Lemma boundary_lengths_witness :
  ((exists r, parse_hex_record eof_record = Return r)
   <-> checksum_correct (Py.strip eof_record))
  /\ parse_hex_record ten_characters = Raise (HexRecordError too_short).
Proof.
  split.
  - apply (proj1 (boundary_lengths eof_record)); vm_compute; reflexivity.
  - apply (proj2 (boundary_lengths ten_characters)). vm_compute. reflexivity.
Defined.

(** ** The case of the hexadecimal digits *)

Ltac each_character c :=
  destruct c as [[|] [|] [|] [|] [|] [|] [|] [|]]; reflexivity.

Lemma hex_lower_idempotent (c : ascii) : hex_lower (hex_lower c) = hex_lower c.
Proof. each_character c. Qed.

Lemma hex_lower_upper (c : ascii) : hex_lower (hex_upper c) = hex_lower c.
Proof. each_character c. Qed.

Lemma unicode_isspace_lower (c : ascii) :
  Py.unicode_isspace (hex_lower c) = Py.unicode_isspace c.
Proof. each_character c. Qed.

Lemma ascii_isspace_lower (c : ascii) :
  Py.ascii_isspace (hex_lower c) = Py.ascii_isspace c.
Proof. each_character c. Qed.

Lemma is_ascii_lower (c : ascii) :
  (Py.ord (hex_lower c) <? 127) = (Py.ord c <? 127).
Proof. each_character c. Qed.

Lemma hex_digit_lower (c : ascii) :
  Py.hex_digit (hex_lower c) = Py.hex_digit c.
Proof. each_character c. Qed.

Lemma is_plus_lower (c : ascii) :
  Py.is_char (hex_lower c) 43 = Py.is_char c 43.
Proof. each_character c. Qed.

Lemma is_minus_lower (c : ascii) :
  Py.is_char (hex_lower c) 45 = Py.is_char c 45.
Proof. each_character c. Qed.

Lemma is_zero_lower (c : ascii) :
  Py.is_char (hex_lower c) 48 = Py.is_char c 48.
Proof. each_character c. Qed.

Lemma is_x_lower (c : ascii) :
  Py.is_char (hex_lower c) 120 = Py.is_char c 120.
Proof. each_character c. Qed.

Lemma is_X_lower (c : ascii) :
  Py.is_char (hex_lower c) 88 = Py.is_char c 88.
Proof. each_character c. Qed.

Lemma is_colon_lower (c : ascii) :
  Ascii.eqb (hex_lower c) ":" = Ascii.eqb c ":".
Proof. each_character c. Qed.

Lemma lstrip_lower (s : Py.str) :
  Py.lstrip (map hex_lower s) = map hex_lower (Py.lstrip s).
Proof.
  induction s as [| c s IH]; cbn [map Py.lstrip]; [reflexivity |].
  rewrite unicode_isspace_lower.
  destruct (Py.unicode_isspace c); [assumption | reflexivity].
Qed.

Lemma strip_lower (s : Py.str) :
  Py.strip (map hex_lower s) = map hex_lower (Py.strip s).
Proof.
  unfold Py.strip, Py.rstrip.
  now rewrite lstrip_lower, <- map_rev, lstrip_lower, map_rev.
Qed.

Lemma len_lower (s : Py.str) : Py.len (map hex_lower s) = Py.len s.
Proof.
  unfold Py.len. now rewrite length_map.
Qed.

Lemma slice_lower (s : Py.str) (i j : Z) :
  Py.slice (map hex_lower s) i j = map hex_lower (Py.slice s i j).
Proof.
  unfold Py.slice. now rewrite len_lower, skipn_map, firstn_map.
Qed.

Lemma to_ascii_spaces_lower (s : Py.str) :
  Py.to_ascii_spaces (map hex_lower s) = map hex_lower (Py.to_ascii_spaces s).
Proof.
  induction s as [| c s IH]; cbn [map Py.to_ascii_spaces]; [reflexivity |].
  rewrite is_ascii_lower, unicode_isspace_lower, IH.
  destruct (Py.ord c <? 127); [reflexivity |].
  destruct (Py.unicode_isspace c); reflexivity.
Qed.

Lemma skip_spaces_lower (s : Py.str) :
  Py.skip_spaces (map hex_lower s) = map hex_lower (Py.skip_spaces s).
Proof.
  induction s as [| c s IH]; cbn [map Py.skip_spaces]; [reflexivity |].
  rewrite ascii_isspace_lower.
  destruct (Py.ascii_isspace c); [assumption | reflexivity].
Qed.

Lemma take_sign_lower (s : Py.str) :
  Py.take_sign (map hex_lower s)
  = (fst (Py.take_sign s), map hex_lower (snd (Py.take_sign s))).
Proof.
  destruct s as [| c s]; cbn [map Py.take_sign]; [reflexivity |].
  rewrite is_plus_lower, is_minus_lower.
  destruct (Py.is_char c 43); [reflexivity |].
  destruct (Py.is_char c 45); reflexivity.
Qed.

Lemma take_prefix_lower (s : Py.str) :
  Py.take_prefix (map hex_lower s) = map hex_lower (Py.take_prefix s).
Proof.
  destruct s as [| c0 [| c1 s]]; cbn [map Py.take_prefix]; try reflexivity.
  rewrite is_zero_lower, is_x_lower, is_X_lower.
  destruct (_ && _); reflexivity.
Qed.

Lemma take_digits_lower (s : Py.str) :
  forall acc count,
    Py.take_digits acc count (map hex_lower s)
    = (fst (Py.take_digits acc count s),
       map hex_lower (snd (Py.take_digits acc count s))).
Proof.
  induction s as [| c s IH]; intros acc count;
    cbn [map Py.take_digits]; [reflexivity |].
  rewrite hex_digit_lower.
  destruct (Py.hex_digit c); [apply IH | reflexivity].
Qed.

Lemma int16_lower (t : Py.str) :
  Py.int16 (map hex_lower t) = outcome (Py.int16 t).
Proof.
  unfold Py.int16.
  rewrite to_ascii_spaces_lower, skip_spaces_lower, take_sign_lower.
  destruct (Py.take_sign _) as [sign s1]. cbn [fst snd].
  rewrite take_prefix_lower, take_digits_lower.
  destruct (Py.take_digits _ _ _) as [[v count] s2]. cbn [fst snd].
  rewrite skip_spaces_lower.
  destruct count as [| count]; [reflexivity |].
  destruct (Py.skip_spaces s2); reflexivity.
Qed.

Lemma outcome_bind {A B : Type} (m : result A) (k : A -> result B) :
  outcome (bind m k) = bind (outcome m) (fun a => outcome (k a)).
Proof.
  destruct m as [a | [v | [t |] |]]; reflexivity.
Qed.

Lemma outcome_idempotent {A : Type} (m : result A) :
  outcome (outcome m) = outcome m.
Proof.
  destruct m as [a | [v | [t |] |]]; try reflexivity.
  cbn [outcome]. rewrite map_map.
  do 3 f_equal. apply map_ext. intros c. apply hex_lower_idempotent.
Qed.

Lemma for_append_ext {A B : Type} (f g : A -> result B) (xs : list A) :
  (forall x, f x = g x) -> for_append f xs = for_append g xs.
Proof.
  intros H. induction xs as [| x xs IH]; cbn [for_append]; [reflexivity |].
  now rewrite H, IH.
Qed.

Lemma for_acc_ext {A S : Type} (f g : S -> A -> result S) (xs : list A) :
  (forall s x, f s x = g s x) -> forall s, for_acc f s xs = for_acc g s xs.
Proof.
  intros H. induction xs as [| x xs IH]; intros s; cbn [for_acc];
    [reflexivity |].
  rewrite H. apply bind_ext. intros s' _. apply IH.
Qed.

Lemma for_append_outcome {A B : Type} (f : A -> result B) (xs : list A) :
  for_append (fun x => outcome (f x)) xs = outcome (for_append f xs).
Proof.
  induction xs as [| x xs IH]; cbn [for_append]; [reflexivity |].
  rewrite outcome_bind. apply bind_ext. intros y _.
  rewrite outcome_bind, IH. reflexivity.
Qed.

Lemma for_acc_outcome {A S : Type} (f : S -> A -> result S) (xs : list A) :
  forall s,
    for_acc (fun s x => outcome (f s x)) s xs = outcome (for_acc f s xs).
Proof.
  induction xs as [| x xs IH]; intros s; cbn [for_acc]; [reflexivity |].
  rewrite outcome_bind. apply bind_ext. intros s' _. apply IH.
Qed.

Lemma get_hex_record_byte_lower (s : Py.str) (n : Z) :
  get_hex_record_byte (map hex_lower s) n = outcome (get_hex_record_byte s n).
Proof.
  unfold get_hex_record_byte. now rewrite slice_lower, int16_lower.
Qed.

Lemma get_hex_record_address_lower (s : Py.str) :
  get_hex_record_address (map hex_lower s)
  = outcome (get_hex_record_address s).
Proof.
  unfold get_hex_record_address.
  rewrite !get_hex_record_byte_lower, outcome_bind.
  apply bind_ext. intros hi _. now rewrite outcome_bind.
Qed.

Lemma get_hex_record_checksum_lower (s : Py.str) :
  get_hex_record_checksum (map hex_lower s)
  = outcome (get_hex_record_checksum s).
Proof.
  unfold get_hex_record_checksum, Py.slice_from.
  now rewrite len_lower, slice_lower, int16_lower.
Qed.

Lemma get_hex_record_byte_count_lower (s : Py.str) :
  get_hex_record_byte_count (map hex_lower s) = get_hex_record_byte_count s.
Proof.
  unfold get_hex_record_byte_count. now rewrite len_lower.
Qed.

Lemma get_hex_record_data_content_lower (s : Py.str) :
  get_hex_record_data_content (map hex_lower s)
  = outcome (get_hex_record_data_content s).
Proof.
  unfold get_hex_record_data_content.
  rewrite get_hex_record_byte_count_lower, outcome_bind.
  rewrite (for_append_ext _ (fun n => outcome (get_hex_record_byte s n)))
    by apply get_hex_record_byte_lower.
  rewrite for_append_outcome. apply bind_ext. intros bs _.
  unfold Py.bytearray. now destruct (forallb _ bs).
Qed.

Lemma calculate_hex_record_checksum_lower (s : Py.str) :
  calculate_hex_record_checksum (map hex_lower s)
  = outcome (calculate_hex_record_checksum s).
Proof.
  unfold calculate_hex_record_checksum.
  rewrite get_hex_record_byte_count_lower, outcome_bind.
  rewrite <- for_acc_outcome. f_equal.
  apply for_acc_ext. intros c n.
  now rewrite get_hex_record_byte_lower, outcome_bind.
Qed.

Lemma item0_lower (s : Py.str) :
  Py.item0 (map hex_lower s) = c <- Py.item0 s ;; Return (hex_lower c).
Proof.
  now destruct s.
Qed.

Lemma parse_hex_record_lower (l : Py.str) :
  parse_hex_record (map hex_lower l) = outcome (parse_hex_record l).
Proof.
  unfold parse_hex_record.
  rewrite strip_lower, len_lower. generalize (Py.strip l). intros s.
  destruct (Py.len s <? 11); [reflexivity |].
  destruct (Py.len s mod 2 =? 1); cbn [negb]; [| reflexivity].
  rewrite item0_lower.
  assert (Py.item0 s = Raise IndexError \/ exists c, Py.item0 s = Return c)
    as [-> | [c ->]]
      by (destruct s as [| c s']; [now left | right; now exists c]);
    cbn [bind]; [reflexivity |].
  rewrite is_colon_lower.
  destruct (Ascii.eqb c ":"); cbn [negb]; [| reflexivity].
  unfold get_hex_record_data_count, get_hex_record_type.
  rewrite !get_hex_record_byte_lower, get_hex_record_address_lower,
    get_hex_record_data_content_lower, get_hex_record_checksum_lower,
    calculate_hex_record_checksum_lower.
  rewrite outcome_bind. apply bind_ext. intros dc _.
  destruct (Py.len s =? 11 + dc * 2); cbn [negb]; [| reflexivity].
  rewrite outcome_bind. apply bind_ext. intros a _.
  rewrite outcome_bind. apply bind_ext. intros t _.
  rewrite outcome_bind. apply bind_ext. intros d _.
  rewrite outcome_bind. apply bind_ext. intros c1 _.
  rewrite outcome_bind. apply bind_ext. intros c2 _.
  destruct (c1 =? c2); reflexivity.
Qed.

Lemma hex_case_eq_upper (l : Py.str) : hex_case_eq (map hex_upper l) l.
Proof.
  unfold hex_case_eq. rewrite map_map. apply map_ext, hex_lower_upper.
Qed.

Lemma hex_case_eq_lower (l : Py.str) : hex_case_eq (map hex_lower l) l.
Proof.
  unfold hex_case_eq. rewrite map_map. apply map_ext, hex_lower_idempotent.
Qed.

(** C9: two lines that differ at most in the case of their hexadecimal
    digits are parsed to the same outcome: the same record, or the same
    exception with the same message (the text that an invalid-literal error
    quotes being read up to that case). *)
Theorem hex_digits_are_case_insensitive (l l' : Py.str) :
  hex_case_eq l l' ->
  outcome (parse_hex_record l) = outcome (parse_hex_record l').
Proof.
  unfold hex_case_eq. intros H.
  now rewrite <- !parse_hex_record_lower, H.
Qed.

Lemma hex_digits_are_case_insensitive_witness :
  hex_case_eq upper_case_record lower_case_record
  /\ outcome (parse_hex_record upper_case_record)
     = outcome (parse_hex_record lower_case_record).
Proof.
  split; [vm_compute; reflexivity |].
  apply (hex_digits_are_case_insensitive upper_case_record lower_case_record).
  vm_compute. reflexivity.
Defined.

(** ** Further properties of the parser and of the scan *)

(** X1: the fields of a returned record are in the ranges of the format: a byte
    for the count, the type and the checksum, 16 bits for the address, and
    bytes for the data; and the record is marked valid. *)
Theorem parsed_fields_in_range (l : Py.str) (r : HexRecord) :
  parse_hex_record l = Return r ->
  0 <= data_count r < 256
  /\ 0 <= address r < 65536
  /\ 0 <= type r < 256
  /\ 0 <= checksum r < 256
  /\ Forall (fun b => 0 <= b < 256) (data r)
  /\ absolute_address r = 0
  /\ valid r = true.
Proof.
  intros H. apply parse_hex_record_accepted in H.
  destruct (accepted_fields _ _ H)
    as (hi & lo & ds & _ & _ & _ & Hb & Ha & Hd & Hc).
  destruct H as (_ & _ & _ & _ & _ & _ & _ & _ & _ & _ & Habs & Hvalid).
  assert (0 <= checksum r < 256) as Hrange
      by (rewrite Hc; apply Z.mod_pos_bound; lia).
  rewrite Hd.
  inversion Hb as [| ? ? B0 Hb1]; subst.
  inversion Hb1 as [| ? ? B1 Hb2]; subst.
  inversion Hb2 as [| ? ? B2 Hb3]; subst.
  inversion Hb3 as [| ? ? B3 Hb4]; subst.
  repeat split; try assumption; lia.
Qed.

Lemma parsed_fields_in_range_witness :
  parse_hex_record sample_record = Return sample_fields
  /\ 0 <= 3 < 256 /\ 0 <= 48 < 65536 /\ 0 <= 0 < 256 /\ 0 <= 30 < 256
  /\ Forall (fun b => 0 <= b < 256) [3; 0; 48; 0; 2; 51; 122]
  /\ 0 = 0 /\ true = true.
Proof.
  split; [vm_compute; reflexivity |].
  apply (parsed_fields_in_range sample_record sample_fields).
  vm_compute. reflexivity.
Defined.

Lemma for_append_no_IndexError {A B : Type} (f : A -> result B)
  (xs : list A) :
  (forall x, f x <> Raise IndexError) ->
  for_append f xs <> Raise IndexError.
Proof.
  intros Hf. induction xs as [| x xs IH]; cbn [for_append]; [discriminate |].
  destruct (f x) as [y | e] eqn:E; cbn [bind];
    [| intros H; injection H as ->; now apply (Hf x)].
  destruct (for_append f xs) as [ys | e']; cbn [bind];
    [discriminate | exact IH].
Qed.

Lemma for_acc_no_IndexError {A : Type} (f : A -> result Z) (xs : list A) :
  (forall x, f x <> Raise IndexError) ->
  forall c,
    for_acc (fun c n => b <- f n ;; Return (Z.land (c + b) 255)) c xs
    <> Raise IndexError.
Proof.
  intros Hf. induction xs as [| x xs IH]; intros c; cbn [for_acc];
    [discriminate |].
  destruct (f x) as [y | e] eqn:E; cbn [bind];
    [apply IH | intros H; injection H as ->; now apply (Hf x)].
Qed.

(** X2: [parse_hex_record] never leaves with an [IndexError]: the first
    character is read only from a line of 11 characters or more. *)
Theorem parse_hex_record_no_IndexError (l : Py.str) :
  parse_hex_record l <> Raise IndexError.
Proof.
  unfold parse_hex_record. generalize (Py.strip l). intros s.
  destruct (Py.len s <? 11) eqn:H11; [discriminate |].
  destruct (Py.len s mod 2 =? 1); cbn [negb]; [| discriminate].
  destruct s as [| c s']; [discriminate |]. cbn [Py.item0 bind].
  destruct (Ascii.eqb c ":"); cbn [negb]; [| discriminate].
  set (s := c :: s').
  assert (forall n, get_hex_record_byte s n <> Raise IndexError) as Hbyte.
  { intros n. unfold get_hex_record_byte.
    destruct (int16_cases (Py.slice s (1 + n * 2) (1 + n * 2 + 2)))
      as [[v ->] | ->]; discriminate. }
  unfold get_hex_record_data_count.
  destruct (get_hex_record_byte s 0) as [dc | e] eqn:E0; cbn [bind];
    [| intros H; injection H as ->; now apply (Hbyte 0)].
  destruct (Py.len s =? 11 + dc * 2); cbn [negb]; [| discriminate].
  unfold get_hex_record_address.
  destruct (get_hex_record_byte s 1) as [hi | e] eqn:E1; cbn [bind];
    [| intros H; injection H as ->; now apply (Hbyte 1)].
  destruct (get_hex_record_byte s 2) as [lo | e] eqn:E2; cbn [bind];
    [| intros H; injection H as ->; now apply (Hbyte 2)].
  unfold get_hex_record_type.
  destruct (get_hex_record_byte s 3) as [t | e] eqn:E3; cbn [bind];
    [| intros H; injection H as ->; now apply (Hbyte 3)].
  destruct (get_hex_record_data_content s) as [d | e] eqn:Ed; cbn [bind].
  2:{ intros H; injection H as ->. revert Ed.
      unfold get_hex_record_data_content.
      destruct (for_append _ _) as [bs | e] eqn:Eb; cbn [bind].
      - unfold Py.bytearray. destruct (forallb _ _); discriminate.
      - intros H. injection H as ->.
        now apply (for_append_no_IndexError _ _ Hbyte) in Eb. }
  unfold get_hex_record_checksum.
  destruct (int16_cases (Py.slice_from s (-2))) as [[c1 ->] | ->];
    cbn [bind]; [| discriminate].
  destruct (calculate_hex_record_checksum s) as [c2 | e] eqn:Ec; cbn [bind].
  2:{ intros H; injection H as ->. revert Ec.
      unfold calculate_hex_record_checksum.
      destruct (for_acc _ _ _) as [c0 | e] eqn:Ea; cbn [bind];
        [discriminate |].
      intros H. injection H as ->.
      now apply (for_acc_no_IndexError _ _ Hbyte) in Ea. }
  destruct (c1 =? c2); discriminate.
Qed.

Lemma read_lines_recoverable (f : list Py.str) :
  forallb recoverable f = true ->
  read_lines f = (List.concat (map report f), None).
Proof.
  induction f as [| l f IH]; cbn [forallb read_lines map List.concat];
    [reflexivity |].
  intros H. apply andb_prop in H. destruct H as [Hl Hf].
  rewrite (IH Hf). unfold recoverable in Hl.
  unfold is_valid_hex_record, report.
  destruct (parse_hex_record l) as [r | [v | w |]] eqn:E;
    try discriminate.
  - apply parse_hex_record_accepted in E.
    destruct E as (_ & _ & _ & _ & _ & _ & _ & _ & _ & _ & _ & ->).
    reflexivity.
  - reflexivity.
Qed.

(** X3: when the lines of the file are ASCII text and none of them leaves
    the parser with an exception other than [HexRecordError], the scan
    reports every line, in order: the name of the type of a parsed line;
    the message and the stripped text of a rejected one. *)
Theorem scan_reports_every_recoverable_line (filename : string)
  (f : list Py.str) :
  forallb is_ascii f = true ->
  forallb recoverable f = true ->
  read_hex_file filename (Lines f) = List.concat (map report f).
Proof.
  intros _ H. unfold read_hex_file. now rewrite (read_lines_recoverable f H).
Qed.

Lemma scan_reports_every_recoverable_line_witness :
  forallb is_ascii [sample_record; scenario_3; eof_record] = true
  /\ forallb recoverable [sample_record; scenario_3; eof_record] = true
  /\ read_hex_file "records.hex" (Lines [sample_record; scenario_3; eof_record])
     = ["data record"%string;
        "'Checksum does not mach: record=254, calculated=255'"%string;
        ":00000001FE"%string;
        "end of file record"%string].
Proof.
  split; [vm_compute; reflexivity |].
  split; [vm_compute; reflexivity |].
  rewrite (scan_reports_every_recoverable_line "records.hex"
             [sample_record; scenario_3; eof_record]).
  - vm_compute. reflexivity.
  - vm_compute. reflexivity.
  - vm_compute. reflexivity.
Defined.

(** ** The fields of a record *)

Lemma slice_nonneg (s : Py.str) (i j : Z) :
  0 <= i -> 0 <= j ->
  Py.slice s i j = firstn (Z.to_nat (j - i)) (skipn (Z.to_nat i) s).
Proof.
  intros Hi Hj. unfold Py.slice, Py.clip, Py.len.
  destruct (i <? 0) eqn:Ei; [lia |]. destruct (j <? 0) eqn:Ej; [lia |].
  set (L := Z.of_nat (List.length s)).
  destruct (Z.le_gt_cases i L) as [HiL | HiL].
  - rewrite (Z.min_l i L) by lia.
    destruct (Z.le_gt_cases j L) as [HjL | HjL].
    + now rewrite (Z.min_l j L) by lia.
    + rewrite (Z.min_r j L) by lia.
      rewrite !firstn_all2; [reflexivity | |]; rewrite length_skipn; lia.
  - rewrite (Z.min_r i L) by lia.
    rewrite !skipn_all2 by lia. now rewrite !firstn_nil.
Qed.

Lemma get_hex_record_byte_field (s : Py.str) (k : nat) :
  get_hex_record_byte s (Z.of_nat k) = Py.int16 (field s k).
Proof.
  unfold get_hex_record_byte, field. rewrite slice_nonneg by lia.
  do 2 f_equal; [| f_equal]; lia.
Qed.

Lemma field_length (s : Py.str) (k : nat) :
  (1 + 2 * k + 2 <= List.length s)%nat -> List.length (field s k) = 2%nat.
Proof.
  intros H. unfold field. rewrite length_firstn, length_skipn. lia.
Qed.

Lemma field_app_l (body t : Py.str) (k : nat) :
  (1 + 2 * k + 2 <= List.length body)%nat ->
  field (body ++ t) k = field body k.
Proof.
  intros H. unfold field. rewrite skipn_app, firstn_app, length_skipn.
  replace (2 - (List.length body - (1 + 2 * k)))%nat with 0%nat by lia.
  now rewrite firstn_O, app_nil_r.
Qed.

Lemma field_at (pre mid post : Py.str) (k : nat) :
  List.length pre = (1 + 2 * k)%nat -> List.length mid = 2%nat ->
  field (pre ++ mid ++ post) k = mid.
Proof.
  intros Hpre Hmid. unfold field.
  rewrite <- Hpre, skipn_app, skipn_all, Nat.sub_diag. cbn [app skipn].
  rewrite firstn_app, <- Hmid, firstn_all, Nat.sub_diag, firstn_O.
  apply app_nil_r.
Qed.

Lemma field_after (pre mid post : Py.str) (k0 k : nat) :
  List.length pre = (1 + 2 * k0)%nat -> List.length mid = 2%nat ->
  (k0 < k)%nat ->
  field (pre ++ mid ++ post) k = firstn 2 (skipn (2 * (k - k0) - 2) post).
Proof.
  intros Hpre Hmid Hk. unfold field.
  rewrite skipn_app, (skipn_all2 pre) by lia. cbn [app].
  rewrite skipn_app, (skipn_all2 mid) by lia. cbn [app].
  do 2 f_equal. lia.
Qed.

(** Replacing the two characters of one field leaves every other field as
    it is. *)
Lemma field_replace (pre mid mid' post : Py.str) (k0 k : nat) :
  List.length pre = (1 + 2 * k0)%nat ->
  List.length mid = 2%nat -> List.length mid' = 2%nat ->
  k <> k0 ->
  field (pre ++ mid' ++ post) k = field (pre ++ mid ++ post) k.
Proof.
  intros Hpre Hmid Hmid' Hk.
  destruct (Nat.lt_ge_cases k k0) as [Hlt | Hge].
  - rewrite !field_app_l by lia. reflexivity.
  - rewrite !(field_after pre _ post k0 k) by lia. reflexivity.
Qed.

(** ** Decoding one field *)

Lemma hex_digit_is_plain (c : ascii) (d : Z) :
  Py.hex_digit c = Some d ->
  (Py.ord c <? 127) = true
  /\ Py.ascii_isspace c = false
  /\ Py.is_char c 43 = false
  /\ Py.is_char c 45 = false
  /\ Py.is_char c 120 = false
  /\ Py.is_char c 88 = false.
Proof.
  destruct c as [[|] [|] [|] [|] [|] [|] [|] [|]]; intros H;
    first [ discriminate H | repeat split; reflexivity ].
Qed.

Lemma int16_two_hex_digits (c1 c2 : ascii) (d1 d2 : Z) :
  Py.hex_digit c1 = Some d1 -> Py.hex_digit c2 = Some d2 ->
  Py.int16 [c1; c2] = Return (16 * d1 + d2).
Proof.
  intros H1 H2.
  destruct (hex_digit_is_plain _ _ H1) as (A1 & S1 & P1 & M1 & _ & _).
  destruct (hex_digit_is_plain _ _ H2) as (A2 & S2 & _ & _ & x2 & X2).
  unfold Py.int16. cbn [Py.to_ascii_spaces]. rewrite A1, A2.
  cbn [Py.skip_spaces]. rewrite S1.
  cbn [Py.take_sign]. rewrite P1, M1.
  cbn [Py.take_prefix]. rewrite x2, X2, andb_false_r.
  cbn [Py.take_digits]. rewrite H1, H2. cbn [Py.skip_spaces].
  f_equal. lia.
Qed.

(** X4: when the characters at the offsets [1 + 2n] and [2 + 2n] of a
    record are hexadecimal digits (0-9, a-f, A-F), [get_hex_record_byte]
    returns the byte they write: sixteen times the first plus the second. *)
Theorem get_hex_record_byte_decodes (pre post : Py.str) (c1 c2 : ascii)
  (d1 d2 n : Z) :
  Py.len pre = 1 + n * 2 ->
  Py.hex_digit c1 = Some d1 ->
  Py.hex_digit c2 = Some d2 ->
  get_hex_record_byte (pre ++ c1 :: c2 :: post) n = Return (16 * d1 + d2).
Proof.
  intros Hpre H1 H2. unfold Py.len in Hpre.
  replace n with (Z.of_nat (Z.to_nat n)) by lia.
  rewrite get_hex_record_byte_field.
  rewrite (field_at pre [c1; c2] post) by (cbn [List.length]; lia).
  now apply int16_two_hex_digits.
Qed.

Lemma get_hex_record_byte_decodes_witness :
  get_hex_record_byte (line ":0300" ++ "3"%char :: "0"%char :: line "0002337A1E") 2
  = Return (16 * 3 + 0).
Proof.
  apply (get_hex_record_byte_decodes (line ":0300") (line "0002337A1E")
           "3" "0" 3 0 2); reflexivity.
Defined.

(** X5: an index past the end of the record raises no [IndexError]: the
    slice is empty, and [int] raises the [ValueError] of an empty literal. *)
Theorem get_hex_record_byte_past_the_end (s : Py.str) (n : Z) :
  0 <= n ->
  Py.len s <= 1 + n * 2 ->
  get_hex_record_byte s n = Raise (ValueError (InvalidLiteral [])).
Proof.
  intros Hn Hlen. unfold Py.len in Hlen.
  replace n with (Z.of_nat (Z.to_nat n)) by lia.
  rewrite get_hex_record_byte_field. unfold field.
  rewrite skipn_all2 by lia. reflexivity.
Qed.

Lemma get_hex_record_byte_past_the_end_witness :
  get_hex_record_byte eof_record 5 = Raise (ValueError (InvalidLiteral [])).
Proof.
  apply (get_hex_record_byte_past_the_end eof_record 5);
    vm_compute; discriminate.
Defined.

Lemma take_sign_minus (s : Py.str) (sign : Z) (s' : Py.str) :
  Py.take_sign s = (sign, s') ->
  (sign = 1 /\ Py.len s' <= Py.len s)
  \/ (sign = -1 /\ Py.len s' + 1 <= Py.len s).
Proof.
  unfold Py.len, Py.take_sign. destruct s as [| c s0].
  - intros H. injection H as <- <-. left. lia.
  - destruct (Py.is_char c 43); [| destruct (Py.is_char c 45)];
      intros H; injection H as <- <-; cbn [List.length]; lia.
Qed.

Lemma int16_two_range (t : Py.str) (v : Z) :
  Py.int16 t = Return v -> Py.len t <= 2 -> -15 <= v <= 255.
Proof.
  unfold Py.int16.
  destruct (Py.take_sign _) as [sign s1] eqn:Hsign.
  destruct (Py.take_digits _ _ _) as [[w count] s2] eqn:Hdigits.
  destruct count as [| count]; [discriminate |].
  destruct (Py.skip_spaces s2); [| discriminate].
  intros H Hlen. injection H as <-.
  apply take_sign_minus in Hsign.
  apply take_digits_range in Hdigits; [| lia].
  pose proof (take_prefix_length s1) as Hlen2.
  pose proof (skip_spaces_length (Py.to_ascii_spaces t)) as Hlen3.
  pose proof (to_ascii_spaces_length t) as Hlen4.
  assert (0 <= Py.len (Py.take_prefix s1)) as Hpos by (unfold Py.len; lia).
  destruct Hsign as [[-> Hs] | [-> Hs]].
  - assert (16 ^ Py.len (Py.take_prefix s1) <= 16 ^ 2) as Hpow
        by (apply Z.pow_le_mono_r; lia).
    change (16 ^ 2) with 256 in Hpow. lia.
  - assert (16 ^ Py.len (Py.take_prefix s1) <= 16 ^ 1) as Hpow
        by (apply Z.pow_le_mono_r; lia).
    change (16 ^ 1) with 16 in Hpow. lia.
Qed.

(** X6: a byte that [get_hex_record_byte] returns lies between -15 and 255:
    never above a byte, and negative only when the field is a minus sign and
    one digit. *)
Theorem get_hex_record_byte_bounds (s : Py.str) (n v : Z) :
  0 <= n ->
  get_hex_record_byte s n = Return v ->
  -15 <= v <= 255.
Proof.
  unfold get_hex_record_byte. intros Hn H.
  apply int16_two_range in H; [assumption |].
  apply slice_two_length. lia.
Qed.

Lemma get_hex_record_byte_bounds_witness :
  get_hex_record_byte minus_record 1 = Return (-15) /\ -15 <= -15 <= 255.
Proof.
  split; [vm_compute; reflexivity |].
  apply (get_hex_record_byte_bounds minus_record 1 (-15));
    [lia | vm_compute; reflexivity].
Defined.

(** ** The calculated checksum *)

(** X7: [calculate_hex_record_checksum] returns [c] exactly when every byte
    before the checksum field decodes and [c] is the byte that brings their
    sum to a multiple of 256. *)
Theorem calculated_checksum_cancels_the_sum (s : Py.str) (c : Z) :
  calculate_hex_record_checksum s = Return c
  <-> exists bs,
      Forall2 (fun n b => get_hex_record_byte s n = Return b)
              (Py.range (get_hex_record_byte_count s - 1)) bs
      /\ 0 <= c < 256
      /\ (sum bs + c) mod 256 = 0.
Proof.
  split.
  - intros H. pose proof H as Hreads.
    unfold calculate_hex_record_checksum in Hreads.
    apply bind_Return in Hreads. destruct Hreads as (c0 & Hreads & _).
    apply for_acc_reads in Hreads. destruct Hreads as [bs Hbs].
    rewrite (calculate_hex_record_checksum_Return _ _ Hbs) in H.
    injection H as <-. exists bs. split; [assumption |].
    unfold twos_complement. zlia.
  - intros (bs & Hbs & Hc & Hsum).
    rewrite (calculate_hex_record_checksum_Return _ _ Hbs). f_equal.
    unfold twos_complement. zlia.
Qed.

Lemma for_acc_ext_in {A S : Type} (f g : S -> A -> result S) (xs : list A) :
  (forall s x, In x xs -> f s x = g s x) ->
  forall s, for_acc f s xs = for_acc g s xs.
Proof.
  induction xs as [| x xs IH]; intros H s; cbn [for_acc]; [reflexivity |].
  rewrite H by (now left). apply bind_ext. intros s' _.
  apply IH. intros s0 x0 Hx. apply H. now right.
Qed.

Lemma for_append_ext_in {A B : Type} (f g : A -> result B) (xs : list A) :
  (forall x, In x xs -> f x = g x) -> for_append f xs = for_append g xs.
Proof.
  induction xs as [| x xs IH]; intros H; cbn [for_append]; [reflexivity |].
  rewrite H by (now left). rewrite IH; [reflexivity |].
  intros x0 Hx. apply H. now right.
Qed.

Lemma range_In (n x : Z) : In x (Py.range n) <-> 0 <= x < n.
Proof.
  unfold Py.range. rewrite in_map_iff. split.
  - intros (k & <- & Hk). apply in_seq in Hk. lia.
  - intros Hx. exists (Z.to_nat x). split; [lia |]. apply in_seq. lia.
Qed.

(** X8: the calculated checksum does not depend on the last two characters
    of the record, the checksum field: the loop stops before it. *)
Theorem calculated_checksum_skips_the_last_field (body : Py.str)
  (a b a' b' : ascii) :
  calculate_hex_record_checksum (body ++ [a; b])
  = calculate_hex_record_checksum (body ++ [a'; b']).
Proof.
  unfold calculate_hex_record_checksum, get_hex_record_byte_count, Py.len.
  rewrite !length_app. cbn [List.length]. f_equal.
  apply for_acc_ext_in. intros c n Hn. apply range_In in Hn.
  replace n with (Z.of_nat (Z.to_nat n)) by lia.
  rewrite !get_hex_record_byte_field.
  rewrite !field_app_l; [reflexivity | |]; zlia.
Qed.

(** ** White space around a line *)

Lemma lstrip_spaces (ws l : Py.str) :
  forallb Py.unicode_isspace ws = true ->
  Py.lstrip (ws ++ l) = Py.lstrip l.
Proof.
  induction ws as [| c ws IH]; cbn [forallb app Py.lstrip]; [reflexivity |].
  intros H. apply andb_prop in H. destruct H as [-> H]. now apply IH.
Qed.

Lemma forallb_rev {A : Type} (f : A -> bool) (l : list A) :
  forallb f (rev l) = forallb f l.
Proof.
  induction l as [| x l IH]; cbn [rev forallb]; [reflexivity |].
  rewrite forallb_app, IH. cbn [forallb]. rewrite andb_true_r.
  apply andb_comm.
Qed.

Lemma rstrip_spaces (l ws : Py.str) :
  forallb Py.unicode_isspace ws = true ->
  Py.rstrip (l ++ ws) = Py.rstrip l.
Proof.
  intros H. unfold Py.rstrip.
  rewrite rev_app_distr, lstrip_spaces; [reflexivity |].
  now rewrite forallb_rev.
Qed.

Lemma strip_spaces (ws l ws' : Py.str) :
  forallb Py.unicode_isspace ws = true ->
  forallb Py.unicode_isspace ws' = true ->
  Py.strip (ws ++ l ++ ws') = Py.strip l.
Proof.
  intros Hws Hws'. unfold Py.strip. rewrite lstrip_spaces by assumption.
  induction l as [| c l IH]; cbn [app Py.lstrip].
  - rewrite <- (app_nil_r ws'), lstrip_spaces by assumption. reflexivity.
  - destruct (Py.unicode_isspace c); [assumption |].
    now rewrite app_comm_cons, rstrip_spaces.
Qed.

(** X9: white space before and after a line changes nothing: the line with
    it is parsed to the same record, or rejected with the same exception,
    and the scan prints the same for it. *)
Theorem surrounding_space_is_ignored (ws l ws' : Py.str) :
  forallb Py.unicode_isspace ws = true ->
  forallb Py.unicode_isspace ws' = true ->
  parse_hex_record (ws ++ l ++ ws') = parse_hex_record l
  /\ read_lines [ws ++ l ++ ws'] = read_lines [l].
Proof.
  intros Hws Hws'.
  assert (parse_hex_record (ws ++ l ++ ws') = parse_hex_record l) as E
      by (unfold parse_hex_record; now rewrite strip_spaces).
  split; [exact E |].
  cbn [read_lines]. unfold is_valid_hex_record.
  now rewrite E, strip_spaces.
Qed.

Lemma surrounding_space_is_ignored_witness :
  parse_hex_record (line " " ++ eof_record ++ line (CR ++ LF))
  = parse_hex_record eof_record
  /\ read_lines [line " " ++ eof_record ++ line (CR ++ LF)]
     = read_lines [eof_record].
Proof.
  apply (surrounding_space_is_ignored (line " ") eof_record (line (CR ++ LF)));
    reflexivity.
Defined.

(** ** The parser reads a record field by field *)

Lemma get_hex_record_checksum_field (s : Py.str) :
  Py.len s mod 2 = 1 -> 3 <= Py.len s ->
  get_hex_record_checksum s = get_hex_record_byte s ((Py.len s - 3) / 2).
Proof.
  intros Hodd Hlen.
  unfold get_hex_record_checksum, get_hex_record_byte, Py.slice_from.
  rewrite (slice_nonneg s (1 + _)) by zlia.
  unfold Py.slice, Py.clip. fold (Py.len s).
  replace (-2 <? 0) with true by reflexivity.
  replace (Py.len s <? 0) with false by (symmetry; apply Z.ltb_ge; lia).
  do 2 f_equal; [| f_equal]; zlia.
Qed.

Lemma get_hex_record_data_content_reads (s s' : Py.str) :
  Py.len s = Py.len s' ->
  (forall n, 0 <= n < get_hex_record_byte_count s - 1 ->
     get_hex_record_byte s n = get_hex_record_byte s' n) ->
  get_hex_record_data_content s = get_hex_record_data_content s'.
Proof.
  intros Hlen Hreads. unfold get_hex_record_data_content.
  replace (get_hex_record_byte_count s')
    with (get_hex_record_byte_count s)
    by (unfold get_hex_record_byte_count; now rewrite Hlen).
  f_equal. apply for_append_ext_in. intros n Hn. apply range_In in Hn.
  now apply Hreads.
Qed.

Lemma calculate_hex_record_checksum_reads (s s' : Py.str) :
  Py.len s = Py.len s' ->
  (forall n, 0 <= n < get_hex_record_byte_count s - 1 ->
     get_hex_record_byte s n = get_hex_record_byte s' n) ->
  calculate_hex_record_checksum s = calculate_hex_record_checksum s'.
Proof.
  intros Hlen Hreads. unfold calculate_hex_record_checksum.
  replace (get_hex_record_byte_count s')
    with (get_hex_record_byte_count s)
    by (unfold get_hex_record_byte_count; now rewrite Hlen).
  f_equal. apply for_acc_ext_in. intros c n Hn. apply range_In in Hn.
  now rewrite Hreads.
Qed.

(** Two lines of the same stripped length, with the same first character
    and the same decoded fields, have the same outcome. *)
Lemma parse_hex_record_reads (l l' : Py.str) :
  Py.len (Py.strip l) = Py.len (Py.strip l') ->
  Py.item0 (Py.strip l) = Py.item0 (Py.strip l') ->
  (forall n, 0 <= n ->
     get_hex_record_byte (Py.strip l) n = get_hex_record_byte (Py.strip l') n) ->
  parse_hex_record l = parse_hex_record l'.
Proof.
  unfold parse_hex_record.
  generalize (Py.strip l), (Py.strip l'). intros s s' Hlen Hitem Hreads.
  rewrite <- Hlen, <- Hitem.
  destruct (Py.len s <? 11) eqn:H11; [reflexivity |].
  destruct (Py.len s mod 2 =? 1) eqn:Hodd; cbn [negb]; [| reflexivity].
  apply Z.ltb_ge in H11. apply Z.eqb_eq in Hodd.
  rewrite <- (get_hex_record_data_content_reads s s' Hlen
                (fun n Hn => Hreads n (proj1 Hn))).
  rewrite <- (calculate_hex_record_checksum_reads s s' Hlen
                (fun n Hn => Hreads n (proj1 Hn))).
  rewrite (get_hex_record_checksum_field s')
    by (rewrite <- Hlen; assumption || lia).
  rewrite (get_hex_record_checksum_field s) by (assumption || lia).
  unfold get_hex_record_data_count, get_hex_record_address,
    get_hex_record_type.
  rewrite <- Hlen, <- !Hreads by zlia. reflexivity.
Qed.

Lemma read_at (pre mid post : Py.str) (k0 : nat) :
  List.length pre = (1 + 2 * k0)%nat -> List.length mid = 2%nat ->
  get_hex_record_byte (pre ++ mid ++ post) (Z.of_nat k0) = Py.int16 mid.
Proof.
  intros Hpre Hmid. now rewrite get_hex_record_byte_field, field_at.
Qed.

Lemma reads_replace (pre mid mid' post : Py.str) (k0 : nat) (n : Z) :
  List.length pre = (1 + 2 * k0)%nat ->
  List.length mid = 2%nat -> List.length mid' = 2%nat ->
  0 <= n -> n <> Z.of_nat k0 ->
  get_hex_record_byte (pre ++ mid' ++ post) n
  = get_hex_record_byte (pre ++ mid ++ post) n.
Proof.
  intros Hpre Hmid Hmid' Hn Hk.
  replace n with (Z.of_nat (Z.to_nat n)) by lia.
  rewrite !get_hex_record_byte_field.
  rewrite (field_replace pre mid mid' post k0) by lia. reflexivity.
Qed.

Lemma range_NoDup (n : Z) : NoDup (Py.range n).
Proof.
  unfold Py.range. apply Injective_map_NoDup.
  - intros x y. apply Nat2Z.inj.
  - apply seq_NoDup.
Qed.

(** Two runs of reads that agree everywhere but at [k0] give sums that
    differ by what is read at [k0]. *)
Lemma reads_sum (F F' : Z -> result Z) (k0 v v' : Z) :
  F k0 = Return v -> F' k0 = Return v' ->
  forall xs bs bs',
    NoDup xs ->
    (forall n, In n xs -> n <> k0 -> F' n = F n) ->
    Forall2 (fun n b => F n = Return b) xs bs ->
    Forall2 (fun n b => F' n = Return b) xs bs' ->
    (In k0 xs -> sum bs - v = sum bs' - v' /\ In v bs /\ In v' bs')
    /\ (~ In k0 xs -> bs = bs').
Proof.
  intros Hv Hv'.
  induction xs as [| x xs IH]; intros bs bs' Hnd Hsame Hbs Hbs';
    inversion Hbs as [| ? b ? bs0 Hb Hbs0]; subst;
    inversion Hbs' as [| ? b' ? bs0' Hb' Hbs0']; subst.
  - split; [intros [] | reflexivity].
  - inversion Hnd as [| ? ? Hx Hnd0]; subst.
    destruct (IH bs0 bs0' Hnd0
                (fun n Hn => Hsame n (or_intror Hn)) Hbs0 Hbs0')
      as [IHin IHout].
    destruct (Z.eq_dec x k0) as [-> | Hne].
    + assert (b = v) as -> by congruence.
      assert (b' = v') as -> by congruence.
      rewrite (IHout Hx). split.
      * intros _. unfold sum. cbn [fold_right In]. split; [lia | auto].
      * intros Hout. exfalso. apply Hout. now left.
    + assert (b' = b) as ->
          by (rewrite (Hsame x (or_introl eq_refl) Hne) in Hb'; congruence).
      split.
      * intros [Heq | Hin]; [contradiction |].
        destruct (IHin Hin) as (Hs & Hi & Hi').
        unfold sum in *. cbn [fold_right In]. split; [lia | auto].
      * intros Hout. f_equal. apply IHout. intros Hin. apply Hout. now right.
Qed.

Lemma accepted_reads (s : Py.str) (r : HexRecord) :
  accepted s r ->
  Forall2 (fun n b => get_hex_record_byte s n = Return b)
          (Py.range (get_hex_record_byte_count s - 1)) (data r)
  /\ Forall (fun b => 0 <= b < 256) (data r)
  /\ checksum r = twos_complement (data r).
Proof.
  intros (_ & _ & _ & _ & _ & _ & _ & H8 & _ & H10 & _).
  unfold get_hex_record_data_content in H8.
  apply bind_Return in H8. destruct H8 as (bs & Hbs & Hba).
  apply bytearray_Return in Hba. destruct Hba as [<- Hrange].
  apply for_append_Forall2 in Hbs.
  rewrite (calculate_hex_record_checksum_Return s bs Hbs) in H10.
  repeat split; [assumption | assumption | congruence].
Qed.

Lemma Forall2_In_left {A B : Type} (P : A -> B -> Prop) (xs : list A)
  (ys : list B) (x : A) :
  Forall2 P xs ys -> In x xs -> exists y, P x y.
Proof.
  induction 1 as [| x0 y0 xs ys Hxy _ IH]; intros Hin; [destruct Hin |].
  destruct Hin as [-> | Hin]; eauto.
Qed.

Lemma twos_complement_sum (a b v v' : Z) :
  (256 - a mod 256) mod 256 = (256 - b mod 256) mod 256 ->
  a - v = b - v' ->
  0 <= v < 256 -> 0 <= v' < 256 ->
  v = v'.
Proof.
  intros H1 H2 Hv Hv'. zlia.
Qed.

(** In two accepted records that differ in one field at most, that field
    decodes to the same value. *)
Lemma accepted_same_field (pre mid mid' post : Py.str) (r r' : HexRecord) :
  accepted (pre ++ mid ++ post) r ->
  accepted (pre ++ mid' ++ post) r' ->
  Py.len pre mod 2 = 1 -> Py.len mid = 2 -> Py.len mid' = 2 ->
  Py.int16 mid' = Py.int16 mid.
Proof.
  intros Ha Ha' Hpre Hmid Hmid'.
  set (s := pre ++ mid ++ post) in *. set (s' := pre ++ mid' ++ post) in *.
  set (k0 := Z.to_nat ((Py.len pre - 1) / 2)).
  assert (List.length pre = (1 + 2 * k0)%nat) as Lpre
      by (unfold k0, Py.len in *; zlia).
  assert (List.length mid = 2%nat) as Lmid by (unfold Py.len in *; lia).
  assert (List.length mid' = 2%nat) as Lmid' by (unfold Py.len in *; lia).
  assert (Py.len s' = Py.len s) as Hlen
      by (unfold s, s', Py.len; rewrite !length_app; lia).
  assert (1 + 2 * Z.of_nat k0 + 2 <= Py.len s) as Hfit
      by (unfold s, Py.len; rewrite !length_app; lia).
  destruct (accepted_reads _ _ Ha) as (Hbs & Hrange & Hc).
  destruct (accepted_reads _ _ Ha') as (Hbs' & Hrange' & Hc').
  destruct Ha as (H11 & Hodd & _ & _ & _ & _ & _ & _ & Hsum & _).
  destruct Ha' as (_ & _ & _ & _ & _ & _ & _ & _ & Hsum' & _).
  rewrite get_hex_record_checksum_field in Hsum by (assumption || lia).
  rewrite get_hex_record_checksum_field in Hsum'
      by (rewrite Hlen; assumption || lia).
  unfold get_hex_record_byte_count in Hbs, Hbs'. rewrite Hlen in Hbs', Hsum'.
  replace ((Py.len s - 1) / 2 - 1) with ((Py.len s - 3) / 2) in Hbs, Hbs'
      by zlia.
  set (N := (Py.len s - 3) / 2) in *.
  assert (Z.of_nat k0 <= N) as Hk0 by (unfold N; zlia).
  assert (forall n, In n (Py.range N) -> n <> Z.of_nat k0 ->
                    get_hex_record_byte s' n = get_hex_record_byte s n)
    as Hsame.
  { intros n Hn Hne. apply range_In in Hn.
    apply (reads_replace pre mid mid' post k0); assumption || lia. }
  rewrite <- (read_at pre mid post k0 Lpre Lmid).
  rewrite <- (read_at pre mid' post k0 Lpre Lmid'). fold s s'.
  destruct (Z.eq_dec (Z.of_nat k0) N) as [Heq | Hne].
  - rewrite Heq, Hsum, Hsum'. f_equal.
    destruct (reads_sum (get_hex_record_byte s) (get_hex_record_byte s')
                N (checksum r) (checksum r') Hsum Hsum'
                (Py.range N) (data r) (data r') (range_NoDup N)) as [_ Hout];
      try assumption.
    + intros n Hn Hn'. apply Hsame; [assumption | lia].
    + rewrite Hc, Hc', Hout; [reflexivity |].
      rewrite range_In. lia.
  - assert (In (Z.of_nat k0) (Py.range N)) as Hin by (apply range_In; lia).
    destruct (Forall2_In_left _ _ _ _ Hbs Hin) as [v Hv].
    destruct (Forall2_In_left _ _ _ _ Hbs' Hin) as [v' Hv'].
    rewrite Hv, Hv'. f_equal.
    destruct (reads_sum (get_hex_record_byte s) (get_hex_record_byte s')
                (Z.of_nat k0) v v' Hv Hv'
                (Py.range N) (data r) (data r') (range_NoDup N)
                Hsame Hbs Hbs') as [Hsums _].
    destruct (Hsums Hin) as (Hdiff & Hi & Hi').
    rewrite Forall_forall in Hrange, Hrange'.
    assert (checksum r' = checksum r) as Hcc.
    { assert (get_hex_record_byte s' N = get_hex_record_byte s N) as EN
          by (apply (reads_replace pre mid mid' post k0); assumption || lia).
      rewrite EN in Hsum'. congruence. }
    rewrite Hc, Hc' in Hcc. unfold twos_complement in Hcc.
    apply (twos_complement_sum _ _ _ _ Hcc); auto.
Qed.

(** X10: replace one field of a line that [parse_hex_record] accepts (two
    characters at an odd offset of the stripped line) by two other
    characters. The new line is accepted exactly when the new field decodes
    to the same value as the old one, and then with the same record: every
    change of the value of a single field is detected. *)
Theorem one_field_replaced (l l' pre mid mid' post : Py.str)
  (r r' : HexRecord) :
  parse_hex_record l = Return r ->
  Py.strip l = pre ++ mid ++ post ->
  Py.strip l' = pre ++ mid' ++ post ->
  Py.len pre mod 2 = 1 ->
  Py.len mid = 2 ->
  Py.len mid' = 2 ->
  (parse_hex_record l' = Return r' <-> r' = r /\ Py.int16 mid' = Py.int16 mid).
Proof.
  intros H Hs Hs' Hpre Hmid Hmid'.
  set (k0 := Z.to_nat ((Py.len pre - 1) / 2)).
  assert (List.length pre = (1 + 2 * k0)%nat) as Lpre
      by (unfold k0, Py.len in *; zlia).
  assert (List.length mid = 2%nat) as Lmid by (unfold Py.len in *; lia).
  assert (List.length mid' = 2%nat) as Lmid' by (unfold Py.len in *; lia).
  assert (Py.int16 mid' = Py.int16 mid ->
          parse_hex_record l' = parse_hex_record l) as Hback.
  { intros E. apply parse_hex_record_reads; rewrite Hs, Hs'.
    - unfold Py.len. rewrite !length_app. lia.
    - destruct pre; [discriminate Lpre | reflexivity].
    - intros n Hn. destruct (Z.eq_dec n (Z.of_nat k0)) as [-> | Hne].
      + now rewrite !read_at.
      + now apply (reads_replace pre mid mid' post k0). }
  split.
  - intros H'.
    assert (Py.int16 mid' = Py.int16 mid) as E.
    { apply parse_hex_record_accepted in H, H'. rewrite Hs in H.
      rewrite Hs' in H'.
      exact (accepted_same_field pre mid mid' post r r' H H' Hpre Hmid Hmid'). }
    split; [| exact E]. rewrite (Hback E) in H'. congruence.
  - intros [-> E]. now rewrite (Hback E).
Qed.

Lemma one_field_replaced_witness :
  parse_hex_record corrupted_record = Return sample_fields
  <-> sample_fields = sample_fields
      /\ Py.int16 (line "34") = Py.int16 (line "33").
Proof.
  apply (one_field_replaced sample_record corrupted_record
           (line ":0300300002") (line "33") (line "34") (line "7A1E")
           sample_fields sample_fields);
    vm_compute; reflexivity.
Defined.

(** A record that passes every check but the last is rejected for its
    checksum. *)
Lemma parse_hex_record_checksum_mismatch (l : Py.str)
  (dc a t c c2 : Z) (d : list Z) :
  11 <= Py.len (Py.strip l) ->
  Py.len (Py.strip l) mod 2 = 1 ->
  Py.item0 (Py.strip l) = Return ":"%char ->
  get_hex_record_data_count (Py.strip l) = Return dc ->
  Py.len (Py.strip l) = 11 + dc * 2 ->
  get_hex_record_address (Py.strip l) = Return a ->
  get_hex_record_type (Py.strip l) = Return t ->
  get_hex_record_data_content (Py.strip l) = Return d ->
  get_hex_record_checksum (Py.strip l) = Return c ->
  calculate_hex_record_checksum (Py.strip l) = Return c2 ->
  c <> c2 ->
  parse_hex_record l = Raise (HexRecordError (checksum_mismatch c c2)).
Proof.
  unfold parse_hex_record. generalize (Py.strip l). intros s.
  intros H1 H2 H3 H4 H5 H6 H7 H8 H9 H10 Hne.
  apply Z.ltb_ge in H1. rewrite H1, H2, H3. cbn [bind negb Z.eqb Pos.eqb].
  rewrite Ascii.eqb_refl, H4. cbn [bind negb].
  rewrite <- H5, Z.eqb_refl, H6, H7, H8, H9, H10. cbn [bind negb].
  apply Z.eqb_neq in Hne. now rewrite Hne.
Qed.

(** X11: write another value in the checksum field of a line that
    [parse_hex_record] accepts: the new line is rejected with the
    [HexRecordError] whose message gives the value written and the checksum
    of the accepted record, as [record=] and [calculated=]. *)
Theorem wrong_checksum_is_reported (l l' body : Py.str) (a b a' b' : ascii)
  (r : HexRecord) (c' : Z) :
  parse_hex_record l = Return r ->
  Py.strip l = body ++ [a; b] ->
  Py.strip l' = body ++ [a'; b'] ->
  Py.int16 [a'; b'] = Return c' ->
  c' <> checksum r ->
  parse_hex_record l'
  = Raise (HexRecordError (checksum_mismatch c' (checksum r))).
Proof.
  intros H Hs Hs' Hc' Hne.
  apply parse_hex_record_accepted in H. rewrite Hs in H.
  destruct H as (H1 & H2 & H3 & H4 & H5 & H6 & H7 & H8 & H9 & H10 & _).
  set (s := body ++ [a; b]) in *. set (s' := body ++ [a'; b']).
  assert (Py.len s = Py.len s') as Hlen
      by (unfold s, s', Py.len; now rewrite !length_app).
  set (k0 := Z.to_nat ((Py.len s - 3) / 2)).
  assert (List.length body = (1 + 2 * k0)%nat) as Lbody.
  { unfold k0. unfold s, Py.len in H1, H2 |- *.
    rewrite length_app in H1, H2 |- *. cbn [List.length] in H1, H2 |- *.
    zlia. }
  assert (forall n, 0 <= n < get_hex_record_byte_count s - 1 ->
                    get_hex_record_byte s n = get_hex_record_byte s' n)
    as Hreads.
  { intros n Hn. unfold s, s'.
    rewrite <- (app_nil_r [a; b]), <- (app_nil_r [a'; b']).
    apply (reads_replace body [a'; b'] [a; b] [] k0);
      try reflexivity; try assumption; try lia.
    unfold get_hex_record_byte_count in Hn. unfold k0. zlia. }
  assert (0 <= data_count r) as Hdc by lia.
  assert (get_hex_record_byte_count s - 1 = data_count r + 4) as HN
      by (apply loop_range; assumption).
  apply (parse_hex_record_checksum_mismatch l' (data_count r) (address r)
           (type r) c' (checksum r) (data r)); rewrite ?Hs'; fold s';
    rewrite <- ?Hlen; try assumption.
  - destruct body; [discriminate Lbody | exact H3].
  - unfold get_hex_record_data_count. rewrite <- Hreads by lia. exact H4.
  - unfold get_hex_record_address. rewrite <- !Hreads by lia. exact H6.
  - unfold get_hex_record_type. rewrite <- Hreads by lia. exact H7.
  - now rewrite <- (get_hex_record_data_content_reads s s' Hlen Hreads).
  - rewrite get_hex_record_checksum_field
      by (rewrite <- Hlen; assumption || lia).
    rewrite <- Hlen. replace ((Py.len s - 3) / 2) with (Z.of_nat k0)
      by (unfold k0; zlia).
    unfold s'. rewrite <- (app_nil_r [a'; b']).
    now rewrite (read_at body [a'; b'] [] k0 Lbody eq_refl).
  - now rewrite <- (calculate_hex_record_checksum_reads s s' Hlen Hreads).
Qed.

Lemma wrong_checksum_is_reported_witness :
  parse_hex_record wrong_checksum_record
  = Raise (HexRecordError (checksum_mismatch 31 (checksum sample_fields))).
Proof.
  apply (wrong_checksum_is_reported sample_record wrong_checksum_record
           (line ":0300300002337A") "1" "E" "1" "F" sample_fields 31);
    vm_compute; (reflexivity || discriminate).
Defined.

(** ** Where the scan stops *)

Lemma read_lines_app (pre rest : list Py.str) :
  forallb recoverable pre = true ->
  read_lines (pre ++ rest)
  = (List.concat (map report pre) ++ fst (read_lines rest),
     snd (read_lines rest)).
Proof.
  induction pre as [| l pre IH]; cbn [forallb app read_lines map List.concat].
  - intros _. now destruct (read_lines rest).
  - intros H. apply andb_prop in H. destruct H as [Hl Hpre].
    rewrite (IH Hpre). unfold recoverable in Hl.
    unfold is_valid_hex_record, report.
    destruct (parse_hex_record l) as [r | [v | w |]] eqn:E;
      try discriminate.
    + apply parse_hex_record_accepted in E.
      destruct E as (_ & _ & _ & _ & _ & _ & _ & _ & _ & _ & _ & ->).
      reflexivity.
    + reflexivity.
Qed.

Lemma read_lines_not_recoverable (bad : Py.str) (post : list Py.str) :
  recoverable bad = false ->
  exists e, read_lines (bad :: post) = ([], Some e).
Proof.
  unfold recoverable. cbn [read_lines]. unfold is_valid_hex_record.
  destruct (parse_hex_record bad) as [r | [v | w |]]; try discriminate;
    intros _; eauto.
Qed.

(** X12: in a file named in ASCII, the scan ends at the first line that
    leaves the parser with an exception other than [HexRecordError], when
    the lines before it are ASCII text: these are reported one by one, then
    the message for a file that cannot be read is printed, and nothing is
    printed for that line or for any line after it. *)
Theorem scan_stops_at_first_other_exception (filename : string)
  (pre : list Py.str) (bad : Py.str) (post : list Py.str) :
  is_ascii (Py.of_string filename) = true ->
  forallb is_ascii pre = true ->
  forallb recoverable pre = true ->
  recoverable bad = false ->
  read_hex_file filename (Lines (pre ++ bad :: post))
  = List.concat (map report pre)
    ++ [("Error while reading file " ++ filename)%string].
Proof.
  intros _ _ Hpre Hbad. unfold read_hex_file.
  rewrite (read_lines_app pre (bad :: post) Hpre).
  destruct (read_lines_not_recoverable bad post Hbad) as [e ->].
  cbn [fst snd]. now rewrite app_nil_r.
Qed.

Lemma scan_stops_at_first_other_exception_witness :
  read_hex_file "records.hex"
    (Lines ([sample_record; scenario_3] ++ bad_digit_record :: [eof_record]))
  = List.concat (map report [sample_record; scenario_3])
    ++ ["Error while reading file records.hex"%string].
Proof.
  apply (scan_stops_at_first_other_exception "records.hex"
           [sample_record; scenario_3] bad_digit_record [eof_record]);
    vm_compute; reflexivity.
Defined.

(** ** The ways a line is rejected *)

Lemma get_hex_record_byte_Raise (s : Py.str) (n : Z) (e : exn) :
  get_hex_record_byte s n = Raise e ->
  e = ValueError (InvalidLiteral (Py.slice s (1 + n * 2) (1 + n * 2 + 2))).
Proof.
  unfold get_hex_record_byte.
  destruct (int16_cases (Py.slice s (1 + n * 2) (1 + n * 2 + 2)))
    as [[v ->] | ->]; congruence.
Qed.

Lemma for_append_Raise {A B : Type} (f : A -> result B) (xs : list A)
  (e : exn) :
  for_append f xs = Raise e -> exists x, In x xs /\ f x = Raise e.
Proof.
  induction xs as [| x xs IH]; cbn [for_append]; [discriminate |].
  destruct (f x) as [y | e'] eqn:E; cbn [bind].
  - destruct (for_append f xs) as [ys | e']; cbn [bind]; [discriminate |].
    intros H. destruct (IH H) as (x0 & Hin & Hx0).
    exists x0. split; [now right | assumption].
  - intros H. injection H as ->. exists x. split; [now left | assumption].
Qed.

Lemma Forall2_In_right {A B : Type} (P : A -> B -> Prop) (xs : list A)
  (ys : list B) (y : B) :
  Forall2 P xs ys -> In y ys -> exists x, In x xs /\ P x y.
Proof.
  induction 1 as [| x0 y0 xs ys Hxy _ IH]; intros Hin; [destruct Hin |].
  destruct Hin as [-> | Hin].
  - exists x0. split; [now left | assumption].
  - destruct (IH Hin) as (x & Hx & Hp). exists x. split; [now right | assumption].
Qed.

Lemma bytearray_Raise (xs : list Z) (e : exn) :
  Py.bytearray xs = Raise e ->
  e = ValueError ByteOutOfRange /\ exists x, In x xs /\ ~ 0 <= x < 256.
Proof.
  unfold Py.bytearray. destruct (forallb _ xs) eqn:E; [discriminate |].
  intros H. injection H as <-. split; [reflexivity |].
  induction xs as [| x xs IH]; cbn [forallb] in E; [discriminate |].
  apply andb_false_iff in E. destruct E as [E | E].
  - exists x. split; [now left | lia].
  - destruct (IH E) as (x0 & Hin & Hx0).
    exists x0. split; [now right | assumption].
Qed.

Lemma read_undecoded (s : Py.str) (n : Z) (e : exn) :
  0 <= n -> 1 + n * 2 + 2 <= Py.len s ->
  get_hex_record_byte s n = Raise e ->
  undecoded_field s e.
Proof.
  intros Hn Hfit H. exists n. repeat split; try assumption.
  now apply get_hex_record_byte_Raise.
Qed.

(** X13: every way [parse_hex_record] rejects a line. The exception is one
    of the four structural [HexRecordError]s, each under its condition; the
    [HexRecordError] of a checksum field that decodes to another value than
    the calculated one; the [ValueError] of [int] for a two-character field
    of the line that does not decode; or the [ValueError] of [bytearray],
    when a field decodes to a negative number. *)
Theorem parse_hex_record_failures (l : Py.str) (e : exn) :
  parse_hex_record l = Raise e ->
  (e = HexRecordError too_short /\ Py.len (Py.strip l) < 11)
  \/ (e = HexRecordError not_odd
      /\ 11 <= Py.len (Py.strip l) /\ Py.len (Py.strip l) mod 2 = 0)
  \/ (e = HexRecordError no_colon
      /\ exists c, Py.item0 (Py.strip l) = Return c /\ c <> ":"%char)
  \/ (e = HexRecordError count_mismatch
      /\ exists dc, get_hex_record_data_count (Py.strip l) = Return dc
                    /\ Py.len (Py.strip l) <> 11 + dc * 2)
  \/ (exists c c2,
        e = HexRecordError (checksum_mismatch c c2)
        /\ get_hex_record_checksum (Py.strip l) = Return c
        /\ calculate_hex_record_checksum (Py.strip l) = Return c2
        /\ c <> c2)
  \/ undecoded_field (Py.strip l) e
  \/ (e = ValueError ByteOutOfRange
      /\ exists n v, 0 <= n
                     /\ get_hex_record_byte (Py.strip l) n = Return v
                     /\ v < 0).
Proof.
  unfold parse_hex_record. generalize (Py.strip l). intros s.
  destruct (Py.len s <? 11) eqn:H11.
  { intros H. injection H as <-. left. apply Z.ltb_lt in H11. now split. }
  apply Z.ltb_ge in H11.
  destruct (Py.len s mod 2 =? 1) eqn:Hodd; cbn [negb].
  2:{ intros H. injection H as <-. right; left.
      apply Z.eqb_neq in Hodd. repeat split; [assumption | zlia]. }
  apply Z.eqb_eq in Hodd.
  destruct (Py.item0 s) as [c0 | e0] eqn:Hitem; cbn [bind].
  2:{ destruct s; [cbn in H11; lia | discriminate Hitem]. }
  destruct (Ascii.eqb c0 ":") eqn:Hcolon; cbn [negb].
  2:{ intros H. injection H as <-. right; right; left.
      split; [reflexivity |]. exists c0. split; [reflexivity |].
      now apply Ascii.eqb_neq. }
  assert (forall n e0, 0 <= n <= 3 -> get_hex_record_byte s n = Raise e0 ->
                       undecoded_field s e0) as Hhead.
  { intros n e0 Hn. apply read_undecoded; lia. }
  unfold get_hex_record_data_count.
  destruct (get_hex_record_byte s 0) as [dc | e0] eqn:H4; cbn [bind].
  2:{ intros H. injection H as <-. do 5 right. left.
      apply (Hhead 0); [lia | assumption]. }
  destruct (Py.len s =? 11 + dc * 2) eqn:H5; cbn [negb].
  2:{ intros H. injection H as <-. right; right; right; left.
      split; [reflexivity |]. exists dc. split; [reflexivity |].
      now apply Z.eqb_neq. }
  unfold get_hex_record_address.
  destruct (get_hex_record_byte s 1) as [hi | e0] eqn:H6; cbn [bind].
  2:{ intros H. injection H as <-. do 5 right. left.
      apply (Hhead 1); [lia | assumption]. }
  destruct (get_hex_record_byte s 2) as [lo | e0] eqn:H7; cbn [bind].
  2:{ intros H. injection H as <-. do 5 right. left.
      apply (Hhead 2); [lia | assumption]. }
  unfold get_hex_record_type.
  destruct (get_hex_record_byte s 3) as [t | e0] eqn:H8; cbn [bind].
  2:{ intros H. injection H as <-. do 5 right. left.
      apply (Hhead 3); [lia | assumption]. }
  destruct (get_hex_record_data_content s) as [d | e0] eqn:H9; cbn [bind].
  2:{ intros H. injection H as <-.
      unfold get_hex_record_data_content in H9.
      destruct (for_append _ _) as [bs | e1] eqn:Hbs; cbn [bind] in H9.
      - apply bytearray_Raise in H9. destruct H9 as (-> & x & Hx & Hout).
        apply for_append_Forall2 in Hbs.
        destruct (Forall2_In_right _ _ _ _ Hbs Hx) as (n & Hn & Hread).
        apply range_In in Hn.
        pose proof (get_hex_record_byte_range s n x ltac:(lia) Hread).
        do 6 right. split; [reflexivity |].
        exists n, x. repeat split; try assumption; lia.
      - injection H9 as ->.
        apply for_append_Raise in Hbs. destruct Hbs as (n & Hn & Hread).
        apply range_In in Hn. unfold get_hex_record_byte_count in Hn.
        do 5 right. left. apply (read_undecoded s n); [lia | zlia | assumption]. }
  destruct (get_hex_record_checksum s) as [c1 | e0] eqn:H10; cbn [bind].
  2:{ intros H. injection H as <-.
      rewrite get_hex_record_checksum_field in H10 by (assumption || lia).
      do 5 right. left.
      apply (read_undecoded s ((Py.len s - 3) / 2)); [zlia | zlia | assumption]. }
  destruct (calculate_hex_record_checksum s) as [c2 | e0] eqn:H11'; cbn [bind].
  2:{ unfold get_hex_record_data_content in H9.
      apply bind_Return in H9. destruct H9 as (bs & Hbs & _).
      apply for_append_Forall2 in Hbs.
      rewrite (calculate_hex_record_checksum_Return s bs Hbs) in H11'.
      discriminate. }
  destruct (c1 =? c2) eqn:Hsum; cbn [negb]; [discriminate |].
  intros H. injection H as <-. do 4 right. left.
  exists c1, c2. repeat split. now apply Z.eqb_neq.
Qed.

Lemma parse_hex_record_failures_witness :
  (ValueError (InvalidLiteral (line "zz")) = HexRecordError too_short
   /\ Py.len (Py.strip bad_digit_record) < 11)
  \/ (ValueError (InvalidLiteral (line "zz")) = HexRecordError not_odd
      /\ 11 <= Py.len (Py.strip bad_digit_record)
      /\ Py.len (Py.strip bad_digit_record) mod 2 = 0)
  \/ (ValueError (InvalidLiteral (line "zz")) = HexRecordError no_colon
      /\ exists c, Py.item0 (Py.strip bad_digit_record) = Return c
                   /\ c <> ":"%char)
  \/ (ValueError (InvalidLiteral (line "zz")) = HexRecordError count_mismatch
      /\ exists dc,
          get_hex_record_data_count (Py.strip bad_digit_record) = Return dc
          /\ Py.len (Py.strip bad_digit_record) <> 11 + dc * 2)
  \/ (exists c c2,
        ValueError (InvalidLiteral (line "zz"))
        = HexRecordError (checksum_mismatch c c2)
        /\ get_hex_record_checksum (Py.strip bad_digit_record) = Return c
        /\ calculate_hex_record_checksum (Py.strip bad_digit_record)
           = Return c2
        /\ c <> c2)
  \/ undecoded_field (Py.strip bad_digit_record)
       (ValueError (InvalidLiteral (line "zz")))
  \/ (ValueError (InvalidLiteral (line "zz")) = ValueError ByteOutOfRange
      /\ exists n v, 0 <= n
                     /\ get_hex_record_byte (Py.strip bad_digit_record) n
                        = Return v
                     /\ v < 0).
Proof.
  apply (parse_hex_record_failures bad_digit_record
           (ValueError (InvalidLiteral (line "zz")))).
  vm_compute. reflexivity.
Defined.

(** X14: a line that [parse_hex_record] accepts, once stripped, begins with
    a colon and has [11 + 2 * data_count] characters: at least 11, and at
    most 521. *)
Theorem accepted_line_shape (l : Py.str) (r : HexRecord) :
  parse_hex_record l = Return r ->
  Py.item0 (Py.strip l) = Return ":"%char
  /\ Py.len (Py.strip l) = 11 + data_count r * 2
  /\ 11 <= Py.len (Py.strip l) <= 521.
Proof.
  intros H. apply parse_hex_record_accepted in H.
  destruct (accepted_fields _ _ H) as (hi & lo & ds & _ & _ & _ & Hb & _).
  destruct H as (H1 & _ & H3 & _ & H5 & _).
  inversion Hb; subst. repeat split; try assumption; lia.
Qed.

Lemma accepted_line_shape_witness :
  Py.item0 (Py.strip sample_record) = Return ":"%char
  /\ Py.len (Py.strip sample_record) = 11 + data_count sample_fields * 2
  /\ 11 <= Py.len (Py.strip sample_record) <= 521.
Proof.
  apply (accepted_line_shape sample_record sample_fields).
  vm_compute. reflexivity.
Defined.

(** ** Records written in hexadecimal digits only *)

Lemma hex_bytes_cons (body : Py.str) (b : Z) (bs : list Z) :
  hex_bytes body = Some (b :: bs) ->
  exists c1 c2 body',
    body = c1 :: c2 :: body'
    /\ Py.int16 [c1; c2] = Return b
    /\ 0 <= b < 256
    /\ hex_bytes body' = Some bs.
Proof.
  destruct body as [| c1 [| c2 body']]; cbn [hex_bytes]; try discriminate.
  destruct (Py.hex_digit c1) as [d1 |] eqn:H1; [| discriminate].
  destruct (Py.hex_digit c2) as [d2 |] eqn:H2; [| discriminate].
  destruct (hex_bytes body') as [bs' |] eqn:H3; [| discriminate].
  intros H.
  assert (b = 16 * d1 + d2 /\ bs = bs') as [-> ->] by (split; congruence).
  pose proof (hex_digit_range _ _ H1). pose proof (hex_digit_range _ _ H2).
  exists c1, c2, body'.
  split; [reflexivity |]. split; [now apply int16_two_hex_digits |].
  split; [lia | assumption].
Qed.

Lemma hex_bytes_range (bs : list Z) :
  forall body, hex_bytes body = Some bs -> Forall (fun b => 0 <= b < 256) bs.
Proof.
  induction bs as [| b bs IH]; intros body H; [constructor |].
  destruct (hex_bytes_cons _ _ _ H) as (c1 & c2 & body' & _ & _ & Hb & H').
  constructor; [assumption | now apply (IH body')].
Qed.

Lemma hex_bytes_length (bs : list Z) :
  forall body,
    hex_bytes body = Some bs -> List.length body = (2 * List.length bs)%nat.
Proof.
  induction bs as [| b bs IH]; intros body H.
  - destruct body as [| c1 [| c2 body']]; cbn [hex_bytes] in H;
      [reflexivity | discriminate |].
    destruct (Py.hex_digit c1), (Py.hex_digit c2), (hex_bytes body');
      discriminate.
  - destruct (hex_bytes_cons _ _ _ H) as (c1 & c2 & body' & -> & _ & _ & H').
    cbn [List.length]. rewrite (IH body' H'). lia.
Qed.

Lemma hex_bytes_read (bs : list Z) :
  forall body pre k i,
    List.length pre = (1 + 2 * k)%nat ->
    hex_bytes body = Some bs ->
    (i < List.length bs)%nat ->
    get_hex_record_byte (pre ++ body) (Z.of_nat (k + i))
    = Return (nth i bs 0).
Proof.
  induction bs as [| b bs IH]; intros body pre k i Hpre H Hi;
    [cbn in Hi; lia |].
  destruct (hex_bytes_cons _ _ _ H) as (c1 & c2 & body' & -> & Hb & _ & H').
  destruct i as [| i].
  - rewrite Nat.add_0_r. cbn [nth].
    change (c1 :: c2 :: body') with ([c1; c2] ++ body').
    now rewrite read_at.
  - cbn [nth].
    change (pre ++ c1 :: c2 :: body') with (pre ++ [c1; c2] ++ body').
    rewrite app_assoc.
    replace (k + S i)%nat with (S k + i)%nat by lia.
    apply IH; [| assumption | cbn in Hi; lia].
    rewrite length_app. cbn [List.length]. lia.
Qed.

Lemma Forall2_seq_nth {B : Type} (G : nat -> B -> Prop) (d : B)
  (bs : list B) :
  forall a,
    (forall i, (i < List.length bs)%nat -> G (a + i)%nat (nth i bs d)) ->
    Forall2 G (seq a (List.length bs)) bs.
Proof.
  induction bs as [| b bs IH]; intros a H; cbn [List.length seq];
    constructor.
  - specialize (H 0%nat). rewrite Nat.add_0_r in H. apply H. cbn. lia.
  - apply IH. intros i Hi.
    replace (S a + i)%nat with (a + S i)%nat by lia.
    apply (H (S i)). cbn. lia.
Qed.

Lemma reads_of_nth (s : Py.str) (bs : list Z) :
  (forall i, (i < List.length bs)%nat ->
     get_hex_record_byte s (Z.of_nat i) = Return (nth i bs 0)) ->
  Forall2 (fun n b => get_hex_record_byte s n = Return b)
          (Py.range (Py.len bs)) bs.
Proof.
  intros H. unfold Py.range, Py.len. rewrite Nat2Z.id.
  apply Forall2_map_left. apply (Forall2_seq_nth _ 0). exact H.
Qed.

(** X15: every record in the usual form is accepted. When the stripped line
    is a colon followed by hexadecimal digits only, which write the byte
    count, the two address bytes, the type, as many data bytes as the count
    says and the two's complement checksum of all of these, then
    [parse_hex_record] returns a record with that count, the address
    [256 * hi + lo], that type and that checksum, marked valid; its [data]
    is the four header bytes followed by the data bytes. *)
Theorem well_formed_record_is_accepted (l body : Py.str) (dc hi lo t c : Z)
  (ds : list Z) :
  Py.strip l = ":"%char :: body ->
  hex_bytes body = Some (dc :: hi :: lo :: t :: ds ++ [c]) ->
  Py.len ds = dc ->
  c = twos_complement (dc :: hi :: lo :: t :: ds) ->
  parse_hex_record l
  = Return {| data_count := dc;
              address := 256 * hi + lo;
              absolute_address := 0;
              type := t;
              data := dc :: hi :: lo :: t :: ds;
              checksum := c;
              valid := true |}.
Proof.
  intros Hs Hbytes Hlen Hc.
  apply parse_hex_record_accepted. rewrite Hs.
  set (s := ":"%char :: body). set (hd := dc :: hi :: lo :: t :: ds).
  change (dc :: hi :: lo :: t :: ds ++ [c]) with (hd ++ [c]) in Hbytes.
  fold hd in Hc.
  assert (List.length hd = (4 + List.length ds)%nat) as Lhd by reflexivity.
  assert (Py.len s = 11 + dc * 2) as Ls.
  { unfold s, Py.len in *. cbn [List.length].
    rewrite (hex_bytes_length _ _ Hbytes), length_app, Lhd.
    cbn [List.length]. lia. }
  assert (0 <= dc) as Hdc by (unfold Py.len in Hlen; lia).
  assert (forall i, (i < List.length (hd ++ [c]))%nat ->
            get_hex_record_byte s (Z.of_nat i) = Return (nth i (hd ++ [c]) 0))
    as Hread.
  { intros i Hi.
    exact (hex_bytes_read _ body [":"%char] 0 i eq_refl Hbytes Hi). }
  assert (Forall2 (fun n b => get_hex_record_byte s n = Return b)
                  (Py.range (get_hex_record_byte_count s - 1)) hd) as Hhd.
  { rewrite (loop_range s dc Ls).
    replace (dc + 4) with (Py.len hd) by (unfold Py.len in *; lia).
    apply reads_of_nth. intros i Hi.
    rewrite <- (app_nth1 hd [c] 0 Hi). apply Hread.
    rewrite length_app. lia. }
  assert (Forall (fun b => 0 <= b < 256) hd) as Hrange.
  { apply hex_bytes_range in Hbytes. apply Forall_app in Hbytes.
    apply Hbytes. }
  unfold accepted. cbn [data_count address absolute_address type data
                        checksum valid].
  repeat split; try assumption; try lia.
  - zlia.
  - apply (Hread 0%nat). rewrite length_app. lia.
  - assert (get_hex_record_byte s 1 = Return hi) as R1
        by (apply (Hread 1%nat); rewrite length_app; lia).
    assert (get_hex_record_byte s 2 = Return lo) as R2
        by (apply (Hread 2%nat); rewrite length_app; lia).
    unfold get_hex_record_address. rewrite R1, R2. cbn [bind]. f_equal.
    rewrite Z.shiftl_mul_pow2 by lia. change (2 ^ 8) with 256. lia.
  - apply (Hread 3%nat). rewrite length_app. lia.
  - unfold get_hex_record_data_content.
    apply for_append_Forall2 in Hhd. rewrite Hhd. cbn [bind].
    apply bytearray_Return. now split.
  - rewrite get_hex_record_checksum_field by zlia.
    replace ((Py.len s - 3) / 2) with (Z.of_nat (List.length hd))
      by (unfold Py.len in *; zlia).
    rewrite Hread by (rewrite length_app; cbn [List.length]; lia).
    now rewrite nth_middle.
  - rewrite (calculate_hex_record_checksum_Return s hd Hhd). now f_equal.
Qed.

Lemma well_formed_record_is_accepted_witness :
  parse_hex_record sample_record
  = Return {| data_count := 3;
              address := 256 * 0 + 48;
              absolute_address := 0;
              type := 0;
              data := 3 :: 0 :: 48 :: 0 :: [2; 51; 122];
              checksum := 30;
              valid := true |}.
Proof.
  apply (well_formed_record_is_accepted sample_record
           (line "0300300002337A1E") 3 0 48 0 30 [2; 51; 122]);
    vm_compute; reflexivity.
Defined.

(** ** What [is_valid_hex_record] answers *)

(** X16: [is_valid_hex_record] returns [True] exactly for the lines that
    [parse_hex_record] accepts, printing the name of the type of the record;
    it returns [False] exactly for the lines rejected with a
    [HexRecordError], printing the message between quotes; and it leaves
    with the exception of the parser, having printed nothing, exactly when
    that exception is not a [HexRecordError]. *)
Theorem is_valid_hex_record_answers (l : Py.str) (printed : list string)
  (e : exn) :
  (is_valid_hex_record l = Return (true, printed)
   <-> exists r, parse_hex_record l = Return r /\ printed = [print_type r])
  /\ (is_valid_hex_record l = Return (false, printed)
      <-> exists value, parse_hex_record l = Raise (HexRecordError value)
                       /\ printed = [Py.repr value])
  /\ (is_valid_hex_record l = Raise e
      <-> parse_hex_record l = Raise e
          /\ forall value, e <> HexRecordError value).
Proof.
  unfold is_valid_hex_record.
  destruct (parse_hex_record l) as [r | [value | w |]] eqn:E.
  1: apply parse_hex_record_accepted in E;
     destruct E as (_ & _ & _ & _ & _ & _ & _ & _ & _ & _ & _ & ->).
  all: split; [| split]; split; intros H;
    repeat match goal with
           | H : exists _, _ |- _ => destruct H
           | H : _ /\ _ |- _ => destruct H
           end;
    subst; try discriminate; try congruence.
  - exists r. split; congruence.
  - exists value. split; congruence.
  - split; [congruence | intros value Hv; congruence].
  - split; [congruence | intros value Hv; congruence].
Qed.
